(** * MQTT fan: the capability-to-topic binding of [homeassistant/components/mqtt/fan.py]

    A shallow embedding of the fan entity: configuration validation, the
    setup of the entity from its configuration, the four inbound message
    handlers and the five outbound commands.  The entity's attributes are a
    record, the effects of a handler or a command (publishing, asking the
    host to write the state, raising) are threaded through a small state and
    error monad over a chronological trace. *)

From Stdlib Require Import ZArith QArith Qround String Ascii List Bool Lia.
Import ListNotations.

#[local] Open Scope string_scope.
#[local] Open Scope list_scope.
#[local] Open Scope Z_scope.

(** ** Python values used by the module *)

Module Py.

(** Truth value of a [str]: only the empty string is falsy
    ([if not payload], [if preset_mode:]). *)
Definition truthy_str (s : string) : bool :=
  match s with
  | EmptyString => false
  | String _ _ => true
  end.

(** Truth value of an [int]: only zero is falsy ([if percentage:]). *)
Definition truthy_int (n : Z) : bool := negb (n =? 0)%Z.

(** Truth value of an optional argument whose default is [None]. *)
Definition truthy_opt {A} (truthy : A -> bool) (o : option A) : bool :=
  match o with
  | None => false
  | Some a => truthy a
  end.

(** Truth value of a [list]: only the empty list is falsy. *)
Definition truthy_list {A} (l : list A) : bool :=
  match l with
  | [] => false
  | _ :: _ => true
  end.

(** [x in xs] on a list of strings. *)
Definition str_in (x : string) (xs : list string) : bool :=
  existsb (String.eqb x) xs.

(** [math.ceil] on the exact value of the float. *)
Definition ceil (x : Q) : Z := Qceiling x.

End Py.

(** ** Keys of the entity's dictionaries *)

(** Keys of [self._topic]. *)
Inductive TopicKey :=
| CONF_STATE_TOPIC
| CONF_COMMAND_TOPIC
| CONF_PERCENTAGE_STATE_TOPIC
| CONF_PERCENTAGE_COMMAND_TOPIC
| CONF_PRESET_MODE_STATE_TOPIC
| CONF_PRESET_MODE_COMMAND_TOPIC
| CONF_OSCILLATION_STATE_TOPIC
| CONF_OSCILLATION_COMMAND_TOPIC.

(** Keys of [self._payload]. *)
Inductive PayloadKey :=
| STATE_ON
| STATE_OFF
| OSCILLATE_ON_PAYLOAD
| OSCILLATE_OFF_PAYLOAD
| PERCENTAGE_RESET
| PRESET_MODE_RESET.

(** Keys of [self._command_templates] and [self._value_templates]. *)
Inductive TemplateKey :=
| CONF_STATE
| ATTR_PERCENTAGE
| ATTR_PRESET_MODE
| ATTR_OSCILLATING.

(** What a command hands to the transport: a payload literal or a preset
    name ([str]) or the native speed ([int]). *)
Inductive PublishPayloadType :=
| PayloadStr (s : string)
| PayloadInt (n : Z).

(** ** Effects *)

(** What the entity does to its collaborators, in the order it does it.
    The host is told of a state change either at once
    ([self.async_write_ha_state()]) or through the write request queue
    ([state_write_requests.write_state_request(self)]). *)
Inductive Event :=
| EvPublish (topic : option string) (payload : PublishPayloadType)
            (qos : Z) (retain : bool) (encoding : option string)
| EvWriteHaState
| EvWriteStateRequest.

Definition is_publish (ev : Event) : bool :=
  match ev with
  | EvPublish _ _ _ _ _ => true
  | _ => false
  end.

Definition is_notification (ev : Event) : bool :=
  match ev with
  | EvWriteHaState | EvWriteStateRequest => true
  | EvPublish _ _ _ _ _ => false
  end.

(** The publishes and the state-change notifications of a trace. *)
Definition publishes (tr : list Event) : list Event := filter is_publish tr.
Definition notifications (tr : list Event) : nat :=
  List.length (filter is_notification tr).

(** Exceptions a command can end with. *)
Inductive Exn :=
| InvalidPresetError (preset_mode : string)
| TransportFailure.

Inductive Outcome (A : Type) :=
| Returned (a : A)
| Raised (e : Exn).
Arguments Returned {A} a.
Arguments Raised {A} e.

(** Outcome of a schema validator: voluptuous turns a [ValueError] raised by
    a validator into [vol.Invalid]. *)
Inductive Validation (A : Type) :=
| Valid (a : A)
| Invalid (msg : string).
Arguments Valid {A} a.
Arguments Invalid {A} msg.

Definition is_valid {A} (v : Validation A) : bool :=
  match v with
  | Valid _ => true
  | Invalid _ => false
  end.

(** The attributes the handlers and commands write: the fan's state. *)
Record FanState := {
  _attr_is_on : option bool;
  _attr_percentage : option Z;
  _attr_preset_mode : option string;
  _attr_oscillating : option bool
}.

Definition set_is_on (v : option bool) (st : FanState) : FanState :=
  {| _attr_is_on := v;
     _attr_percentage := _attr_percentage st;
     _attr_preset_mode := _attr_preset_mode st;
     _attr_oscillating := _attr_oscillating st |}.

Definition set_percentage (v : option Z) (st : FanState) : FanState :=
  {| _attr_is_on := _attr_is_on st;
     _attr_percentage := v;
     _attr_preset_mode := _attr_preset_mode st;
     _attr_oscillating := _attr_oscillating st |}.

Definition set_preset_mode (v : option string) (st : FanState) : FanState :=
  {| _attr_is_on := _attr_is_on st;
     _attr_percentage := _attr_percentage st;
     _attr_preset_mode := v;
     _attr_oscillating := _attr_oscillating st |}.

Definition set_oscillating (v : option bool) (st : FanState) : FanState :=
  {| _attr_is_on := _attr_is_on st;
     _attr_percentage := _attr_percentage st;
     _attr_preset_mode := _attr_preset_mode st;
     _attr_oscillating := v |}.

(** ** Configuration validation *)

(** Modelled from the spec: [cv.positive_int], of
    [homeassistant.helpers.config_validation], is not part of this module.
    The schema puts both ends of the speed range through it before
    [valid_speed_range_configuration] runs.  The spec has the construction
    fail for a minimum that is zero or less; the module refuses the zero
    itself, so what is left to this validator is the negative integers. *)
Definition positive_int (v : Z) : Validation Z :=
  if v <? 0 then Invalid "value must be at least 0" else Valid v.

(** The collaborators of the module, which it imports and only calls. *)
Class Collaborators := {
  (** A template object of the host, and the two renderers the MQTT layer
      wraps around an optional template:
      [MqttCommandTemplate(tpl, entity=self).async_render] and
      [MqttValueTemplate(tpl, entity=self).async_render_with_possible_json_value]. *)
  Template : Type;
  MqttCommandTemplate :
    option Template -> PublishPayloadType -> PublishPayloadType;
  MqttValueTemplate : option Template -> string -> string;
  (** [PAYLOAD_NONE] of [.const]. *)
  PAYLOAD_NONE : string;
  (** Python's [int] on a text: [None] stands for its [ValueError]. *)
  int : string -> option Z;
  (** [homeassistant.util.percentage]: the two remaps and the number of
      native speeds of a range. *)
  percentage_to_ranged_value : Z * Z -> Z -> Q;
  ranged_value_to_percentage : Z * Z -> Z -> Z;
  int_states_in_range : Z * Z -> Z;
  (** [FanEntityFeature]'s bits. *)
  OSCILLATE : Z;
  SET_SPEED : Z;
  PRESET_MODE : Z;
  (** The transport: given everything done so far, the publish request last
      in the trace included, whether that request goes through. *)
  transport : list Event -> bool
}.

Section Fan.

Context `{Collaborators}.

(** The validated configuration, [config]: [CONF_TOPIC config k] is
    [config.get(k)], so [None] is a key that is not configured. *)
Record ConfigType := {
  CONF_OPTIMISTIC : bool;
  CONF_TOPIC : TopicKey -> option string;
  CONF_SPEED_RANGE_MIN : Z;
  CONF_SPEED_RANGE_MAX : Z;
  CONF_PRESET_MODES_LIST : list string;
  CONF_PAYLOAD_ON : string;
  CONF_PAYLOAD_OFF : string;
  CONF_PAYLOAD_OSCILLATION_ON : string;
  CONF_PAYLOAD_OSCILLATION_OFF : string;
  CONF_PAYLOAD_RESET_PERCENTAGE : string;
  CONF_PAYLOAD_RESET_PRESET_MODE : string;
  CONF_COMMAND_TEMPLATES : TemplateKey -> option Template;
  CONF_VALUE_TEMPLATES : TemplateKey -> option Template;
  CONF_QOS : Z;
  CONF_RETAIN : bool;
  CONF_ENCODING : option string
}.

Definition valid_speed_range_configuration (config : ConfigType)
  : Validation ConfigType :=
  if CONF_SPEED_RANGE_MIN config =? 0 then
    Invalid "speed_range_min must be > 0"
  else if CONF_SPEED_RANGE_MIN config >=? CONF_SPEED_RANGE_MAX config then
    Invalid "speed_range_max must be > speed_range_min"
  else Valid config.

Definition valid_preset_mode_configuration (config : ConfigType)
  : Validation ConfigType :=
  if Py.str_in (CONF_PAYLOAD_RESET_PRESET_MODE config)
               (CONF_PRESET_MODES_LIST config) then
    Invalid "preset_modes must not contain payload_reset_preset_mode"
  else Valid config.

(** [vol.All]: each validator is fed the output of the one before it. *)
Definition and_then {A B} (v : Validation A) (f : A -> Validation B)
  : Validation B :=
  match v with
  | Valid a => f a
  | Invalid msg => Invalid msg
  end.

(** The speed range through the schema: the two entries of
    [_PLATFORM_SCHEMA_BASE] for its keys, [cv.positive_int] both, and then
    [valid_speed_range_configuration], as [vol.All] chains them in every
    schema of the module.  The other keys of the schema are not part of
    it. *)
Definition speed_range_schema (config : ConfigType) : Validation ConfigType :=
  and_then (positive_int (CONF_SPEED_RANGE_MIN config)) (fun _ =>
  and_then (positive_int (CONF_SPEED_RANGE_MAX config)) (fun _ =>
  valid_speed_range_configuration config)).

(** ** The entity *)

Record MqttFan := {
  _config : ConfigType;
  _speed_range : Z * Z;
  _topic : TopicKey -> option string;
  _payload : PayloadKey -> string;
  _feature_percentage : bool;
  _feature_preset_mode : bool;
  _attr_preset_modes : list string;
  _attr_speed_count : Z;
  _optimistic : bool;
  _optimistic_oscillation : bool;
  _optimistic_percentage : bool;
  _optimistic_preset_mode : bool;
  _attr_supported_features : Z;
  _command_templates : TemplateKey -> PublishPayloadType -> PublishPayloadType;
  _value_templates : TemplateKey -> string -> string;
  state : FanState
}.

(** [x is None] and [key in config]. *)
Definition is_None {A} (o : option A) : bool :=
  match o with
  | None => true
  | Some _ => false
  end.

Definition key_in (config : ConfigType) (k : TopicKey) : bool :=
  negb (is_None (CONF_TOPIC config k)).

(** [MqttFan._setup_from_config]; [st] is what the attributes of the state
    hold when it is called, which it does not touch. *)
Definition _setup_from_config (config : ConfigType) (st : FanState)
  : MqttFan :=
  let speed_range :=
    (CONF_SPEED_RANGE_MIN config, CONF_SPEED_RANGE_MAX config) in
  let topic := fun key => CONF_TOPIC config key in
  let payload := fun key =>
    match key with
    | STATE_ON => CONF_PAYLOAD_ON config
    | STATE_OFF => CONF_PAYLOAD_OFF config
    | OSCILLATE_ON_PAYLOAD => CONF_PAYLOAD_OSCILLATION_ON config
    | OSCILLATE_OFF_PAYLOAD => CONF_PAYLOAD_OSCILLATION_OFF config
    | PERCENTAGE_RESET => CONF_PAYLOAD_RESET_PERCENTAGE config
    | PRESET_MODE_RESET => CONF_PAYLOAD_RESET_PRESET_MODE config
    end in
  let feature_percentage := key_in config CONF_PERCENTAGE_COMMAND_TOPIC in
  let feature_preset_mode := key_in config CONF_PRESET_MODE_COMMAND_TOPIC in
  let optimistic := CONF_OPTIMISTIC config in
  let features0 :=
    Z.lor 0 (if negb (is_None (topic CONF_OSCILLATION_COMMAND_TOPIC))
             then OSCILLATE else 0) in
  let features1 :=
    if feature_percentage then Z.lor features0 SET_SPEED else features0 in
  let features2 :=
    if feature_preset_mode then Z.lor features1 PRESET_MODE else features1 in
  {| _config := config;
     _speed_range := speed_range;
     _topic := topic;
     _payload := payload;
     _feature_percentage := feature_percentage;
     _feature_preset_mode := feature_preset_mode;
     _attr_preset_modes :=
       if feature_preset_mode then CONF_PRESET_MODES_LIST config else [];
     _attr_speed_count :=
       if feature_percentage
       then Z.min (int_states_in_range speed_range) 100
       else 100;
     _optimistic := optimistic || is_None (topic CONF_STATE_TOPIC);
     _optimistic_oscillation :=
       optimistic || is_None (topic CONF_OSCILLATION_STATE_TOPIC);
     _optimistic_percentage :=
       optimistic || is_None (topic CONF_PERCENTAGE_STATE_TOPIC);
     _optimistic_preset_mode :=
       optimistic || is_None (topic CONF_PRESET_MODE_STATE_TOPIC);
     _attr_supported_features := features2;
     _command_templates := fun key =>
       MqttCommandTemplate (CONF_COMMAND_TEMPLATES config key);
     _value_templates := fun key =>
       MqttValueTemplate (CONF_VALUE_TEMPLATES config key);
     state := st |}.

(** [MqttFan.__init__]: percentage and preset mode start unknown, then the
    base class sets the entity up from its configuration.  [FanEntity]
    leaves the other two attributes unknown. *)
Definition __init__ (config : ConfigType) : MqttFan :=
  _setup_from_config config
    {| _attr_is_on := None;
       _attr_percentage := None;
       _attr_preset_mode := None;
       _attr_oscillating := None |}.

(** Writing an attribute of the state leaves the rest of [self] alone. *)
Definition with_state (f : FanState -> FanState) (self : MqttFan) : MqttFan :=
  {| _config := _config self;
     _speed_range := _speed_range self;
     _topic := _topic self;
     _payload := _payload self;
     _feature_percentage := _feature_percentage self;
     _feature_preset_mode := _feature_preset_mode self;
     _attr_preset_modes := _attr_preset_modes self;
     _attr_speed_count := _attr_speed_count self;
     _optimistic := _optimistic self;
     _optimistic_oscillation := _optimistic_oscillation self;
     _optimistic_percentage := _optimistic_percentage self;
     _optimistic_preset_mode := _optimistic_preset_mode self;
     _attr_supported_features := _attr_supported_features self;
     _command_templates := _command_templates self;
     _value_templates := _value_templates self;
     state := f (state self) |}.

(** [FanEntity.preset_modes]. *)
Definition preset_modes (self : MqttFan) : list string :=
  _attr_preset_modes self.

(** [MqttFan.assumed_state]. *)
Definition assumed_state (self : MqttFan) : bool := _optimistic self.

(** [MqttFan.is_on]. *)
Definition is_on (self : MqttFan) : option bool := _attr_is_on (state self).

(** ** The monad of handlers and commands

    The entity and the trace of what it has done so far; a computation
    returns or raises, and what it did before raising stays done. *)
Record World := {
  fan : MqttFan;
  trace : list Event
}.

Definition Op (A : Type) : Type := World -> Outcome A * World.

Definition ret {A} (a : A) : Op A := fun w => (Returned a, w).

Definition bind {A B} (c : Op A) (k : A -> Op B) : Op B :=
  fun w =>
    match c w with
    | (Returned a, w') => k a w'
    | (Raised e, w') => (Raised e, w')
    end.

Definition raise {A} (e : Exn) : Op A := fun w => (Raised e, w).

Definition get_self : Op MqttFan := fun w => (Returned (fan w), w).

Definition modify (f : FanState -> FanState) : Op unit :=
  fun w => (Returned tt, {| fan := with_state f (fan w); trace := trace w |}).

Definition emit (ev : Event) : Op unit :=
  fun w => (Returned tt, {| fan := fan w; trace := trace w ++ [ev] |}).

End Fan.

Declare Scope op_scope.
Delimit Scope op_scope with op.
Notation "x <- c ;; k" := (bind c (fun x => k))
  (at level 61, c at next level, right associativity) : op_scope.
Notation "c ;; k" := (bind c (fun _ => k))
  (at level 61, right associativity) : op_scope.

#[local] Open Scope op_scope.

Section Handlers.

Context `{Collaborators}.

(** ** Inbound: the message callbacks of [_prepare_subscribe_topics]

    Each takes [msg.payload].  None of them raises: the one exception in
    reach, the [ValueError] of [int], is caught. *)

Definition state_received (msg_payload : string) : Op unit :=
  self <- get_self ;;
  let payload := _value_templates self CONF_STATE msg_payload in
  if negb (Py.truthy_str payload) then
    ret tt
  else
    (if (payload =? _payload self STATE_ON)%string then
       modify (set_is_on (Some true))
     else if (payload =? _payload self STATE_OFF)%string then
       modify (set_is_on (Some false))
     else if (payload =? PAYLOAD_NONE)%string then
       modify (set_is_on None)
     else ret tt) ;;
    emit EvWriteStateRequest.

Definition percentage_received (msg_payload : string) : Op unit :=
  self <- get_self ;;
  let rendered_percentage_payload :=
    _value_templates self ATTR_PERCENTAGE msg_payload in
  if negb (Py.truthy_str rendered_percentage_payload) then
    ret tt
  else if (rendered_percentage_payload =? _payload self PERCENTAGE_RESET)%string then
    modify (set_percentage None) ;;
    emit EvWriteStateRequest
  else
    match int rendered_percentage_payload with
    | None => ret tt
    | Some n =>
        let percentage := ranged_value_to_percentage (_speed_range self) n in
        if (percentage <? 0) || (percentage >? 100) then
          ret tt
        else
          modify (set_percentage (Some percentage)) ;;
          emit EvWriteStateRequest
    end.

Definition preset_mode_received (msg_payload : string) : Op unit :=
  self <- get_self ;;
  let preset_mode := _value_templates self ATTR_PRESET_MODE msg_payload in
  if (preset_mode =? _payload self PRESET_MODE_RESET)%string then
    modify (set_preset_mode None) ;;
    emit EvWriteHaState
  else if negb (Py.truthy_str preset_mode) then
    ret tt
  else if negb (Py.truthy_list (preset_modes self))
          || negb (Py.str_in preset_mode (preset_modes self)) then
    ret tt
  else
    modify (set_preset_mode (Some preset_mode)) ;;
    emit EvWriteStateRequest.

Definition oscillation_received (msg_payload : string) : Op unit :=
  self <- get_self ;;
  let payload := _value_templates self ATTR_OSCILLATING msg_payload in
  if negb (Py.truthy_str payload) then
    ret tt
  else
    (if (payload =? _payload self OSCILLATE_ON_PAYLOAD)%string then
       modify (set_oscillating (Some true))
     else if (payload =? _payload self OSCILLATE_OFF_PAYLOAD)%string then
       modify (set_oscillating (Some false))
     else ret tt) ;;
    emit EvWriteStateRequest.

(** The callback [_prepare_subscribe_topics] binds to a state topic. *)
Definition msg_callback (key : TopicKey) : option (string -> Op unit) :=
  match key with
  | CONF_STATE_TOPIC => Some state_received
  | CONF_PERCENTAGE_STATE_TOPIC => Some percentage_received
  | CONF_PRESET_MODE_STATE_TOPIC => Some preset_mode_received
  | CONF_OSCILLATION_STATE_TOPIC => Some oscillation_received
  | _ => None
  end.

(** [MqttFan._prepare_subscribe_topics]: the state topics that are
    configured, in the order the method adds them, and the defaults it
    gives the three optional attributes whose topic is configured. *)
Definition _prepare_subscribe_topics (self : MqttFan)
  : MqttFan * list (TopicKey * string) :=
  let sub key :=
    match _topic self key with
    | Some t => [(key, t)]
    | None => []
    end in
  let reset key f (s : MqttFan) :=
    if is_None (_topic self key) then s else with_state f s in
  (reset CONF_OSCILLATION_STATE_TOPIC (set_oscillating (Some false))
     (reset CONF_PRESET_MODE_STATE_TOPIC (set_preset_mode None)
        (reset CONF_PERCENTAGE_STATE_TOPIC (set_percentage None) self)),
   sub CONF_STATE_TOPIC ++ sub CONF_PERCENTAGE_STATE_TOPIC
     ++ sub CONF_PRESET_MODE_STATE_TOPIC ++ sub CONF_OSCILLATION_STATE_TOPIC).

(** ** Outbound: the commands *)

(** [MqttEntity.async_publish]: the request is made; when the transport
    refuses it the command ends there. *)
Definition async_publish (topic : option string)
    (payload : PublishPayloadType) (qos : Z) (retain : bool)
    (encoding : option string) : Op unit :=
  emit (EvPublish topic payload qos retain encoding) ;;
  fun w => if transport (trace w) then ret tt w else raise TransportFailure w.

(** Modelled from the spec: [FanEntity._valid_preset_mode_or_raise], of
    [homeassistant.components.fan], is not part of this module; the command
    fails with the invalid-preset error if the mode is not in the
    configured preset modes. *)
Definition _valid_preset_mode_or_raise (preset_mode : string) : Op unit :=
  self <- get_self ;;
  if Py.str_in preset_mode (preset_modes self) then ret tt
  else raise (InvalidPresetError preset_mode).

(** The publish every command makes: on its command topic, with the
    entity's quality of service, retain flag and encoding. *)
Definition publish_on (key : TopicKey) (mqtt_payload : PublishPayloadType)
  : Op unit :=
  self <- get_self ;;
  async_publish (_topic self key) mqtt_payload
    (CONF_QOS (_config self)) (CONF_RETAIN (_config self))
    (CONF_ENCODING (_config self)).

Definition async_set_percentage (percentage : Z) : Op unit :=
  self <- get_self ;;
  let percentage_payload :=
    Py.ceil (percentage_to_ranged_value (_speed_range self) percentage) in
  let mqtt_payload :=
    _command_templates self ATTR_PERCENTAGE (PayloadInt percentage_payload) in
  publish_on CONF_PERCENTAGE_COMMAND_TOPIC mqtt_payload ;;
  self <- get_self ;;
  if _optimistic_percentage self then
    modify (set_percentage (Some percentage)) ;;
    emit EvWriteHaState
  else ret tt.

Definition async_set_preset_mode (preset_mode : string) : Op unit :=
  _valid_preset_mode_or_raise preset_mode ;;
  self <- get_self ;;
  let mqtt_payload :=
    _command_templates self ATTR_PRESET_MODE (PayloadStr preset_mode) in
  publish_on CONF_PRESET_MODE_COMMAND_TOPIC mqtt_payload ;;
  self <- get_self ;;
  if _optimistic_preset_mode self then
    modify (set_preset_mode (Some preset_mode)) ;;
    emit EvWriteHaState
  else ret tt.

Definition async_oscillate (oscillating : bool) : Op unit :=
  self <- get_self ;;
  let mqtt_payload :=
    if oscillating then
      _command_templates self ATTR_OSCILLATING
        (PayloadStr (_payload self OSCILLATE_ON_PAYLOAD))
    else
      _command_templates self ATTR_OSCILLATING
        (PayloadStr (_payload self OSCILLATE_OFF_PAYLOAD)) in
  publish_on CONF_OSCILLATION_COMMAND_TOPIC mqtt_payload ;;
  self <- get_self ;;
  if _optimistic_oscillation self then
    modify (set_oscillating (Some oscillating)) ;;
    emit EvWriteHaState
  else ret tt.

Definition async_turn_on (percentage : option Z) (preset_mode : option string)
  : Op unit :=
  self <- get_self ;;
  let mqtt_payload :=
    _command_templates self CONF_STATE (PayloadStr (_payload self STATE_ON)) in
  publish_on CONF_COMMAND_TOPIC mqtt_payload ;;
  (match percentage with
   | Some p => if Py.truthy_int p then async_set_percentage p else ret tt
   | None => ret tt
   end) ;;
  (match preset_mode with
   | Some m => if Py.truthy_str m then async_set_preset_mode m else ret tt
   | None => ret tt
   end) ;;
  self <- get_self ;;
  if _optimistic self then
    modify (set_is_on (Some true)) ;;
    emit EvWriteHaState
  else ret tt.

Definition async_turn_off : Op unit :=
  self <- get_self ;;
  let mqtt_payload :=
    _command_templates self CONF_STATE (PayloadStr (_payload self STATE_OFF)) in
  publish_on CONF_COMMAND_TOPIC mqtt_payload ;;
  self <- get_self ;;
  if _optimistic self then
    modify (set_is_on (Some false)) ;;
    emit EvWriteHaState
  else ret tt.

End Handlers.

(** ** The remap between percentage and native speed *)

Module Remap.

(** A linear map between the percentage scale and [steps] native speeds
    that start after [offset], and its integer inverse. *)
Definition to_ranged (steps offset : Z) (percentage : Z) : Q :=
  (inject_Z percentage / 100 * inject_Z steps + inject_Z offset)%Q.

Definition to_percentage (steps offset : Z) (value : Z) : Z :=
  (value - offset) * 100 / steps.

(** Modelled from the spec: [percentage_to_ranged_value], of
    [homeassistant.util.percentage], is not part of this module.  The spec
    calls the remap a linear mapping between the percentage scale and the
    device-native integer range, counts the speeds of a range by its span,
    and has 42 go out as the native speed 42 over (1, 100): every integer of
    the range is a step, [high - low + 1] of them, counted from below the
    minimum.  (The expression the same sentence of the spec writes,
    [42/100*(100-1)+1], is 42.58 and is not this map.)  The helper computes
    in floating point; this is its exact value, which has the same ceiling
    while the range stays below 2^40. *)
Definition percentage_to_ranged_value (low_high_range : Z * Z)
    (percentage : Z) : Q :=
  let '(low, high) := low_high_range in
  to_ranged (high - low + 1) (low - 1) percentage.

(** Modelled from the spec: [ranged_value_to_percentage], of
    [homeassistant.util.percentage], is not part of this module.  The spec
    has the inbound handler remap the native integer from the speed range
    into the percentage scale by the same linear mapping; read the other
    way it is an integer division, which rounds down. *)
Definition ranged_value_to_percentage (low_high_range : Z * Z) (value : Z)
  : Z :=
  let '(low, high) := low_high_range in
  to_percentage (high - low + 1) (low - 1) value.

(** The spec's [remapFromPercentage]: what [async_set_percentage] sends,
    the remap rounded up. *)
Definition remapFromPercentage (percentage : Z) (range : Z * Z) : Z :=
  Py.ceil (percentage_to_ranged_value range percentage).

(** The spec's [remapToPercentage]: what [percentage_received] computes
    from the integer it parsed. *)
Definition remapToPercentage (value : Z) (range : Z * Z) : Z :=
  ranged_value_to_percentage range value.

End Remap.

(** ** A host to run the entity in *)

Module Sample.

(** A reading of decimal numerals for the runs below: the digits of a
    numeral, most significant first. *)
Fixpoint numeral (acc : Z) (s : string) : option Z :=
  match s with
  | EmptyString => Some acc
  | String c s' =>
      let n := nat_of_ascii c in
      if ((48 <=? n) && (n <=? 57))%nat
      then numeral (10 * acc + (Z.of_nat n - 48)) s'
      else None
  end.

(** What [int] gives on a text that is a sign, or none, and then one ASCII
    digit or more; every other text is refused here.  The runs below hand it
    short numerals of that kind and plain words, which [int] refuses too. *)
Definition decimal (s : string) : option Z :=
  match s with
  | EmptyString => None
  | String "-" (String _ _ as s') => option_map Z.opp (numeral 0 s')
  | String "+" (String _ _ as s') => numeral 0 s'
  | _ => numeral 0 s
  end.

(** No templates are configured: both renderers hand their input back.
    Every publish goes through. *)
Definition host : Collaborators := {|
  Template := Empty_set;
  MqttCommandTemplate := fun _ payload => payload;
  MqttValueTemplate := fun _ payload => payload;
  PAYLOAD_NONE := "None";
  int := decimal;
  percentage_to_ranged_value := Remap.percentage_to_ranged_value;
  ranged_value_to_percentage := Remap.ranged_value_to_percentage;
  int_states_in_range := fun r => snd r - fst r + 1;
  OSCILLATE := 2;
  SET_SPEED := 1;
  PRESET_MODE := 8;
  transport := fun _ => true
|}.

Definition topics (key : TopicKey) : option string :=
  match key with
  | CONF_STATE_TOPIC => Some "fan/state"
  | CONF_COMMAND_TOPIC => Some "fan/set"
  | CONF_PERCENTAGE_STATE_TOPIC => Some "fan/speed/state"
  | CONF_PERCENTAGE_COMMAND_TOPIC => Some "fan/speed/set"
  | CONF_PRESET_MODE_STATE_TOPIC => Some "fan/preset/state"
  | CONF_PRESET_MODE_COMMAND_TOPIC => Some "fan/preset/set"
  | CONF_OSCILLATION_STATE_TOPIC => Some "fan/osc/state"
  | CONF_OSCILLATION_COMMAND_TOPIC => Some "fan/osc/set"
  end.

(** The schema's defaults, over the given topics, preset modes, speed range
    and percentage reset payload. *)
Definition config_of `{Collaborators} (topic : TopicKey -> option string)
    (modes : list string) (low high : Z) (reset_percentage : string)
  : ConfigType := {|
  CONF_OPTIMISTIC := false;
  CONF_TOPIC := topic;
  CONF_SPEED_RANGE_MIN := low;
  CONF_SPEED_RANGE_MAX := high;
  CONF_PRESET_MODES_LIST := modes;
  CONF_PAYLOAD_ON := "ON";
  CONF_PAYLOAD_OFF := "OFF";
  CONF_PAYLOAD_OSCILLATION_ON := "oscillate_on";
  CONF_PAYLOAD_OSCILLATION_OFF := "oscillate_off";
  CONF_PAYLOAD_RESET_PERCENTAGE := reset_percentage;
  CONF_PAYLOAD_RESET_PRESET_MODE := "None";
  CONF_COMMAND_TEMPLATES := fun _ => None;
  CONF_VALUE_TEMPLATES := fun _ => None;
  CONF_QOS := 0;
  CONF_RETAIN := false;
  CONF_ENCODING := Some "utf-8"
|}.

(** Every channel reports its state; two preset modes; range (1, 100). *)
Definition config `{Collaborators} : ConfigType :=
  config_of topics ["eco"; "auto"] 1 100 "None".

(** The same without a topic for the percentage state. *)
Definition no_percentage_state (key : TopicKey) : option string :=
  match key with
  | CONF_PERCENTAGE_STATE_TOPIC => None
  | _ => topics key
  end.

Definition config_no_percentage_state `{Collaborators} : ConfigType :=
  config_of no_percentage_state ["eco"; "auto"] 1 100 "None".

(** A fan that is on at half speed. *)
Definition half_speed : FanState := {|
  _attr_is_on := Some true;
  _attr_percentage := Some 50;
  _attr_preset_mode := Some "eco";
  _attr_oscillating := Some false
|}.

(** The entity at half speed, before anything happened. *)
Definition world `{Collaborators} (config : ConfigType) : World :=
  {| fan := _setup_from_config config half_speed; trace := [] |}.

End Sample.

(** ** The channels, as the specification speaks of them *)

Inductive Channel :=
| Power
| Percentage
| PresetMode
| Oscillation.

Inductive Command :=
| TurnOn
| TurnOff
| SetPercentage (percentage : Z)
| SetPresetMode (preset_mode : string)
| SetOscillating (oscillating : bool).

(** What became of an inbound payload: a transition, a payload that is
    none of the channel's literals, or a payload that is dropped (empty, or
    rejected). *)
Inductive Verdict :=
| Accepted (delta : FanState -> FanState)
| Unrecognised
| Dropped.

Section Channels.

Context `{Collaborators}.

Definition state_topic (ch : Channel) : TopicKey :=
  match ch with
  | Power => CONF_STATE_TOPIC
  | Percentage => CONF_PERCENTAGE_STATE_TOPIC
  | PresetMode => CONF_PRESET_MODE_STATE_TOPIC
  | Oscillation => CONF_OSCILLATION_STATE_TOPIC
  end.

Definition template_key (ch : Channel) : TemplateKey :=
  match ch with
  | Power => CONF_STATE
  | Percentage => ATTR_PERCENTAGE
  | PresetMode => ATTR_PRESET_MODE
  | Oscillation => ATTR_OSCILLATING
  end.

(** The optimism rule in the specification's words: the global flag, or no
    state topic for the channel. *)
Definition channel_optimistic (config : ConfigType) (ch : Channel) : bool :=
  CONF_OPTIMISTIC config || is_None (CONF_TOPIC config (state_topic ch)).

(** The flag the entity holds for a channel. *)
Definition optimistic_flag (self : MqttFan) (ch : Channel) : bool :=
  match ch with
  | Power => _optimistic self
  | Percentage => _optimistic_percentage self
  | PresetMode => _optimistic_preset_mode self
  | Oscillation => _optimistic_oscillation self
  end.

Definition channel_of (cmd : Command) : Channel :=
  match cmd with
  | TurnOn | TurnOff => Power
  | SetPercentage _ => Percentage
  | SetPresetMode _ => PresetMode
  | SetOscillating _ => Oscillation
  end.

(** The command's operation, alone on its channel. *)
Definition run_command (cmd : Command) : Op unit :=
  match cmd with
  | TurnOn => async_turn_on None None
  | TurnOff => async_turn_off
  | SetPercentage p => async_set_percentage p
  | SetPresetMode m => async_set_preset_mode m
  | SetOscillating o => async_oscillate o
  end.

(** The commanded value, written into the state. *)
Definition echo (cmd : Command) : FanState -> FanState :=
  match cmd with
  | TurnOn => set_is_on (Some true)
  | TurnOff => set_is_on (Some false)
  | SetPercentage p => set_percentage (Some p)
  | SetPresetMode m => set_preset_mode (Some m)
  | SetOscillating o => set_oscillating (Some o)
  end.

(** The handler of a channel's state topic. *)
Definition handler (ch : Channel) : string -> Op unit :=
  match ch with
  | Power => state_received
  | Percentage => percentage_received
  | PresetMode => preset_mode_received
  | Oscillation => oscillation_received
  end.

(** The specification's [onMessage], channel by channel. *)
Definition onMessage (self : MqttFan) (ch : Channel) (raw : string)
  : Verdict :=
  let rendered := _value_templates self (template_key ch) raw in
  match ch with
  | Power =>
      if (rendered =? "")%string then Dropped
      else if (rendered =? _payload self STATE_ON)%string then
        Accepted (set_is_on (Some true))
      else if (rendered =? _payload self STATE_OFF)%string then
        Accepted (set_is_on (Some false))
      else if (rendered =? PAYLOAD_NONE)%string then
        Accepted (set_is_on None)
      else Unrecognised
  | Percentage =>
      if (rendered =? "")%string then Dropped
      else if (rendered =? _payload self PERCENTAGE_RESET)%string then
        Accepted (set_percentage None)
      else
        match int rendered with
        | None => Dropped
        | Some n =>
            let p := ranged_value_to_percentage (_speed_range self) n in
            if (0 <=? p) && (p <=? 100) then Accepted (set_percentage (Some p))
            else Dropped
        end
  | PresetMode =>
      if (rendered =? _payload self PRESET_MODE_RESET)%string then
        Accepted (set_preset_mode None)
      else if (rendered =? "")%string then Dropped
      else if Py.str_in rendered (preset_modes self) then
        Accepted (set_preset_mode (Some rendered))
      else Dropped
  | Oscillation =>
      if (rendered =? "")%string then Dropped
      else if (rendered =? _payload self OSCILLATE_ON_PAYLOAD)%string then
        Accepted (set_oscillating (Some true))
      else if (rendered =? _payload self OSCILLATE_OFF_PAYLOAD)%string then
        Accepted (set_oscillating (Some false))
      else Unrecognised
  end.

(** The publish a command makes on a topic of the entity. *)
Definition publish_event (self : MqttFan) (key : TopicKey)
    (mqtt_payload : PublishPayloadType) : Event :=
  EvPublish (_topic self key) mqtt_payload (CONF_QOS (_config self))
    (CONF_RETAIN (_config self)) (CONF_ENCODING (_config self)).

(** The publishes of the power, percentage and preset commands. *)
Definition power_command (self : MqttFan) (key : PayloadKey) : Event :=
  publish_event self CONF_COMMAND_TOPIC
    (_command_templates self CONF_STATE (PayloadStr (_payload self key))).

Definition percentage_command (self : MqttFan) (percentage : Z) : Event :=
  publish_event self CONF_PERCENTAGE_COMMAND_TOPIC
    (_command_templates self ATTR_PERCENTAGE
       (PayloadInt
          (Py.ceil
             (percentage_to_ranged_value (_speed_range self) percentage)))).

Definition preset_mode_command (self : MqttFan) (preset_mode : string)
  : Event :=
  publish_event self CONF_PRESET_MODE_COMMAND_TOPIC
    (_command_templates self ATTR_PRESET_MODE (PayloadStr preset_mode)).


(** The truth value of the two optional arguments of [async_turn_on]. *)
Definition given_percentage (percentage : option Z) : bool :=
  Py.truthy_opt Py.truthy_int percentage.

Definition given_preset_mode (preset_mode : option string) : bool :=
  Py.truthy_opt Py.truthy_str preset_mode.

(** The list of an optional argument. *)
Definition given {A} (o : option A) : list A :=
  match o with
  | Some a => [a]
  | None => []
  end.

End Channels.

(** ** Message sequences and what the state may hold *)

Section Delivery.

Context `{Collaborators}.

(** The host delivering inbound messages one after the other, each to the
    callback of the channel it arrived on. *)
Fixpoint deliver (msgs : list (Channel * string)) : Op unit :=
  match msgs with
  | [] => ret tt
  | (ch, raw) :: rest => handler ch raw ;; deliver rest
  end.

(** A percentage that is known lies on the percentage scale. *)
Definition percentage_in_scale (st : FanState) : Prop :=
  match _attr_percentage st with
  | None => True
  | Some p => 0 <= p <= 100
  end.

(** A preset mode that is known is one of the entity's. *)
Definition preset_mode_known (self : MqttFan) (st : FanState) : Prop :=
  match _attr_preset_mode st with
  | None => True
  | Some m => In m (preset_modes self)
  end.

(** The entity with its state replaced. *)
Definition in_state (self : MqttFan) (st : FanState) : MqttFan :=
  with_state (fun _ => st) self.

(** What a payload does to the state, and the notifications it causes, by
    the verdict on it. *)
Definition transition (self : MqttFan) (ch : Channel) (raw : string)
  : FanState -> FanState :=
  match onMessage self ch raw with
  | Accepted delta => delta
  | Unrecognised | Dropped => fun st => st
  end.

Definition notified (self : MqttFan) (ch : Channel) (raw : string)
  : list Event :=
  match onMessage self ch raw with
  | Accepted _ =>
      match ch with
      | PresetMode =>
          if (_value_templates self ATTR_PRESET_MODE raw
              =? _payload self PRESET_MODE_RESET)%string
          then [EvWriteHaState] else [EvWriteStateRequest]
      | _ => [EvWriteStateRequest]
      end
  | Unrecognised => [EvWriteStateRequest]
  | Dropped => []
  end.

(** The transitions a channel can make: none, or a write of its own
    attribute, a percentage on the scale, a preset mode of the entity. *)
Inductive channel_write (self : MqttFan) : Channel -> (FanState -> FanState)
                                           -> Prop :=
| write_nothing ch : channel_write self ch (fun st => st)
| write_is_on v : channel_write self Power (set_is_on v)
| write_percentage_unknown :
    channel_write self Percentage (set_percentage None)
| write_percentage p :
    0 <= p <= 100 -> channel_write self Percentage (set_percentage (Some p))
| write_preset_mode_unknown :
    channel_write self PresetMode (set_preset_mode None)
| write_preset_mode m :
    In m (preset_modes self) ->
    channel_write self PresetMode (set_preset_mode (Some m))
| write_oscillating v : channel_write self Oscillation (set_oscillating v).

End Delivery.

(** * The ecoforest sensor platform: [homeassistant/components/ecoforest/sensor.py]

    The device answers a poll with a text of measures, one [name=value] to
    a line; the platform turns the text into a dictionary and each sensor
    reads its own measure from it. *)

(** ** Python strings and dictionaries *)

Module PyStr.

(** The line feed. *)
Definition LF : ascii := ascii_of_nat 10.

(** [sep in s], for a separator of one character. *)
Fixpoint has (sep : ascii) (s : string) : bool :=
  match s with
  | EmptyString => false
  | String c s' => Ascii.eqb c sep || has sep s'
  end.

(** [s.split(sep)], for a separator of one character: the pieces between
    the separators, the empty ones too; never an empty list. *)
Fixpoint split (sep : ascii) (s : string) : list string :=
  match s with
  | EmptyString => [EmptyString]
  | String c s' =>
      if Ascii.eqb c sep then EmptyString :: split sep s'
      else
        match split sep s' with
        | piece :: pieces => String c piece :: pieces
        | [] => [String c EmptyString]
        end
  end.

(** A text is the UTF-8 bytes of the Python string.  The white space of
    [str.strip()] is what [str.isspace()] is true of: the bytes of U+0009
    to U+000D, U+001C to U+0020, U+0085, U+00A0, U+1680, U+2000 to U+200A,
    U+2028, U+2029, U+202F, U+205F and U+3000. *)
Definition text_of (bytes : list nat) : string :=
  string_of_list_ascii (map ascii_of_nat bytes).

Definition white_space : list string :=
  map text_of
    [[9]; [10]; [11]; [12]; [13]; [28]; [29]; [30]; [31]; [32];
     [194; 133]; [194; 160]; [225; 154; 128];
     [226; 128; 128]; [226; 128; 129]; [226; 128; 130]; [226; 128; 131];
     [226; 128; 132]; [226; 128; 133]; [226; 128; 134]; [226; 128; 135];
     [226; 128; 136]; [226; 128; 137]; [226; 128; 138];
     [226; 128; 168]; [226; 128; 169]; [226; 128; 175];
     [226; 129; 159]; [227; 128; 128]]%nat.

(** What follows [w] in [s], when [s] starts with [w]. *)
Fixpoint after (w s : string) : option string :=
  match w with
  | EmptyString => Some s
  | String a w' =>
      match s with
      | String b s' => if Ascii.eqb a b then after w' s' else None
      | EmptyString => None
      end
  end.

(** What follows the first of [ws] that [s] starts with. *)
Fixpoint after_any (ws : list string) (s : string) : option string :=
  match ws with
  | [] => None
  | w :: ws' =>
      match after w s with
      | Some rest => Some rest
      | None => after_any ws' s
      end
  end.

(** [s.lstrip()]: one white space character is taken off the front for as
    long as there is one; [n] bounds how many, and the length of the text is
    bound enough. *)
Fixpoint lstrip_upto (n : nat) (s : string) : string :=
  match n with
  | O => s
  | S n' =>
      match after_any white_space s with
      | Some rest => lstrip_upto n' rest
      | None => s
      end
  end.

Definition lstrip (s : string) : string := lstrip_upto (String.length s) s.

(** [s.rstrip()]: the text up to its last run of white space, which is where
    nothing but white space follows. *)
Fixpoint rstrip (s : string) : string :=
  match s with
  | EmptyString => EmptyString
  | String c s' =>
      match lstrip s with
      | EmptyString => EmptyString
      | String _ _ => String c (rstrip s')
      end
  end.

(** [s.strip()]. *)
Definition strip (s : string) : string := rstrip (lstrip s).

(** A character that no white space has among its bytes. *)
Definition outside_white_space (c : ascii) : bool :=
  forallb (fun w => negb (has c w)) white_space.

End PyStr.

(** The exceptions of the platform's parsing. *)
Inductive PyError :=
| IndexError
| KeyError
| ValueError.

Inductive Result (A : Type) :=
| Ok (a : A)
| Err (e : PyError).
Arguments Ok {A} a.
Arguments Err {A} e.

Definition is_ok {A} (r : Result A) : bool :=
  match r with
  | Ok _ => true
  | Err _ => false
  end.

Module PyDict.

(** A [dict] from [str] to [str]: its items in insertion order, no key
    twice. *)
Definition t : Type := list (string * string).

(** [d[key] = value]: the value of a key that is there is replaced where it
    stands, a new key goes last. *)
Fixpoint set (key value : string) (d : t) : t :=
  match d with
  | [] => [(key, value)]
  | (k, v) :: d' =>
      if (k =? key)%string then (key, value) :: d'
      else (k, v) :: set key value d'
  end.

(** [d[key]]: [KeyError] for a key that is not there. *)
Fixpoint get (key : string) (d : t) : Result string :=
  match d with
  | [] => Err KeyError
  | (k, v) :: d' => if (k =? key)%string then Ok v else get key d'
  end.

End PyDict.

Module Ecoforest.

(** [{row[0]: row[1] for row in data_expanded}], filled from [out]: a row of
    fewer than two pieces ends it with [IndexError]. *)
Fixpoint dict_of_rows (data_expanded : list (list string)) (out : PyDict.t)
  : Result PyDict.t :=
  match data_expanded with
  | [] => Ok out
  | row :: rows =>
      match row with
      | row0 :: row1 :: _ => dict_of_rows rows (PyDict.set row0 row1 out)
      | _ => Err IndexError
      end
  end.

(** [payload_deserializer]. *)
Definition payload_deserializer (payload : string) : Result PyDict.t :=
  let data_expanded :=
    map (fun measure => PyStr.split "=" (PyStr.strip measure))
        (PyStr.split PyStr.LF payload) in
  let data_expanded := removelast data_expanded in
  dict_of_rows data_expanded [].

(** What every sensor's [update] reads from the text of the answer,
    [payload_deserializer(result.text)[var_name]], before it converts it. *)
Definition measure (var_name : string) (result_text : string)
  : Result string :=
  match payload_deserializer result_text with
  | Ok payload => PyDict.get var_name payload
  | Err e => Err e
  end.

(** [POWER_LEVEL["var_name"]]. *)
Definition POWER_LEVEL_var_name : string := "Ni".

(** [PowerLevel.update], from the text of the answer to the native value:
    the one sensor that reads an [int].  [int] is Python's, [None] standing
    for its [ValueError]. *)
Definition PowerLevel_update (int : string -> option Z)
    (result_text : string) : Result Z :=
  match measure POWER_LEVEL_var_name result_text with
  | Ok value =>
      match int value with
      | Some n => Ok n
      | None => Err ValueError
      end
  | Err e => Err e
  end.

(** The text of an answer that holds the given measures, one to a line. *)
Fixpoint answer (measures : list (string * string)) : string :=
  match measures with
  | [] => EmptyString
  | (name, value) :: rest =>
      (name ++ String "=" (value ++ String PyStr.LF (answer rest)))%string
  end.

(** A measure that survives the parsing as it is: no line feed and no equals
    sign in name or value, no white space before the name or after the
    value. *)
Definition plain (measure : string * string) : bool :=
  let (name, value) := measure in
  negb (PyStr.has PyStr.LF name) && negb (PyStr.has "=" name)
  && negb (PyStr.has PyStr.LF value) && negb (PyStr.has "=" value)
  && (PyStr.lstrip name =? name)%string
  && (PyStr.rstrip value =? value)%string.

(** The value the last line for a name gives it. *)
Fixpoint last_value (name : string) (measures : list (string * string))
  : option string :=
  match measures with
  | [] => None
  | (k, v) :: rest =>
      match last_value name rest with
      | Some v' => Some v'
      | None => if (k =? name)%string then Some v else None
      end
  end.

End Ecoforest.

(** ** More hosts and configurations to run the entity in *)

Module Trial.

(** A transport that refuses every publish. *)
Definition refusing_host : Collaborators := {|
  Template := Empty_set;
  MqttCommandTemplate := fun _ payload => payload;
  MqttValueTemplate := fun _ payload => payload;
  PAYLOAD_NONE := "None";
  int := Sample.decimal;
  percentage_to_ranged_value := Remap.percentage_to_ranged_value;
  ranged_value_to_percentage := Remap.ranged_value_to_percentage;
  int_states_in_range := fun r => snd r - fst r + 1;
  OSCILLATE := 2;
  SET_SPEED := 1;
  PRESET_MODE := 8;
  transport := fun _ => false
|}.

(** A transport that takes one publish and refuses the following ones. *)
Definition one_publish_host : Collaborators := {|
  Template := Empty_set;
  MqttCommandTemplate := fun _ payload => payload;
  MqttValueTemplate := fun _ payload => payload;
  PAYLOAD_NONE := "None";
  int := Sample.decimal;
  percentage_to_ranged_value := Remap.percentage_to_ranged_value;
  ranged_value_to_percentage := Remap.ranged_value_to_percentage;
  int_states_in_range := fun r => snd r - fst r + 1;
  OSCILLATE := 2;
  SET_SPEED := 1;
  PRESET_MODE := 8;
  transport := fun t => (List.length (publishes t) <=? 1)%nat
|}.

(** The sample topics without a topic for the power state. *)
Definition no_state (key : TopicKey) : option string :=
  match key with
  | CONF_STATE_TOPIC => None
  | _ => Sample.topics key
  end.

(** The sample topics without a preset command topic. *)
Definition no_preset_command (key : TopicKey) : option string :=
  match key with
  | CONF_PRESET_MODE_COMMAND_TOPIC => None
  | _ => Sample.topics key
  end.

Definition config_no_state `{Collaborators} : ConfigType :=
  Sample.config_of no_state ["eco"; "auto"] 1 100 "None".



Definition config_no_preset_command `{Collaborators} : ConfigType :=
  Sample.config_of no_preset_command ["eco"; "auto"] 1 100 "None".

(** A speed range with a negative minimum. *)
Definition config_negative_minimum `{Collaborators} : ConfigType :=
  Sample.config_of Sample.topics ["eco"; "auto"] (-5) 100 "None".

(** A fan that is off. *)
Definition switched_off : FanState := {|
  _attr_is_on := Some false;
  _attr_percentage := None;
  _attr_preset_mode := None;
  _attr_oscillating := Some false
|}.

(** The entity of a configuration, switched off, before anything happened. *)
Definition world `{Collaborators} (config : ConfigType) : World :=
  {| fan := _setup_from_config config switched_off; trace := [] |}.

(** Three messages: a speed off the scale, a speed, and a power payload. *)
Definition messages : list (Channel * string) :=
  [(Percentage, "250"); (Percentage, "30"); (Power, "OFF");
   (PresetMode, "turbo"); (PresetMode, "auto")].

(** An answer of the stove: the power level stands twice. *)
Definition measures : list (string * string) :=
  [("Ta", "21.5"); ("Ni", "3"); ("Pa", "1.2"); ("Ni", "7")].

End Trial.

(** * Properties *)

(** ** Traces and membership *)

Lemma notifications_app (tr tr' : list Event) :
  notifications (tr ++ tr') = (notifications tr + notifications tr')%nat.
Proof.
  unfold notifications. rewrite filter_app, length_app. reflexivity.
Qed.

Lemma publishes_app (tr tr' : list Event) :
  publishes (tr ++ tr') = publishes tr ++ publishes tr'.
Proof. unfold publishes. apply filter_app. Qed.

Lemma str_in_In (x : string) (xs : list string) :
  Py.str_in x xs = true <-> In x xs.
Proof.
  unfold Py.str_in. rewrite existsb_exists. split.
  - intros [y [Hin Heq]]. apply String.eqb_eq in Heq. now subst.
  - intros Hin. exists x. split; [assumption | apply String.eqb_refl].
Qed.

Lemma str_in_not_In (x : string) (xs : list string) :
  ~ In x xs -> Py.str_in x xs = false.
Proof.
  intros Hn. destruct (Py.str_in x xs) eqn:E; [|reflexivity].
  apply str_in_In in E. contradiction.
Qed.

Lemma truthy_str_eqb (s : string) :
  Py.truthy_str s = negb (s =? "")%string.
Proof. destruct s; reflexivity. Qed.

Lemma str_in_nil_or (x : string) (xs : list string) :
  negb (Py.truthy_list xs) || negb (Py.str_in x xs) = negb (Py.str_in x xs).
Proof. destruct xs; reflexivity. Qed.

Section Configuration.

Context `{Collaborators}.

(** ** Validation of the speed range *)

Lemma speed_range_schema_valid (config : ConfigType) :
  0 < CONF_SPEED_RANGE_MIN config < CONF_SPEED_RANGE_MAX config ->
  speed_range_schema config = Valid config.
Proof.
  intros [Hlo Hhi].
  unfold speed_range_schema, positive_int,
    valid_speed_range_configuration, and_then.
  destruct (Z.ltb_spec (CONF_SPEED_RANGE_MIN config) 0); [lia|].
  destruct (Z.ltb_spec (CONF_SPEED_RANGE_MAX config) 0); [lia|].
  destruct (Z.eqb_spec (CONF_SPEED_RANGE_MIN config) 0); [lia|].
  destruct (Z.geb_spec (CONF_SPEED_RANGE_MIN config)
              (CONF_SPEED_RANGE_MAX config)); [lia|].
  reflexivity.
Qed.

Lemma speed_range_schema_invalid (config : ConfigType) :
  ~ 0 < CONF_SPEED_RANGE_MIN config < CONF_SPEED_RANGE_MAX config ->
  exists msg, speed_range_schema config = Invalid msg.
Proof.
  intros Hn.
  unfold speed_range_schema, positive_int,
    valid_speed_range_configuration, and_then.
  destruct (Z.ltb_spec (CONF_SPEED_RANGE_MIN config) 0); [eauto|].
  destruct (Z.ltb_spec (CONF_SPEED_RANGE_MAX config) 0); [eauto|].
  destruct (Z.eqb_spec (CONF_SPEED_RANGE_MIN config) 0); [eauto|].
  destruct (Z.geb_spec (CONF_SPEED_RANGE_MIN config)
              (CONF_SPEED_RANGE_MAX config)); [eauto|].
  lia.
Qed.

(** C3. For every pair of integers (min, max) the speed range of the
    configuration is accepted when 0 < min < max, and is refused with an
    error for every other pair, so whenever min <= 0 or min >= max. *)
Theorem speed_range_configuration (config : ConfigType) :
  let low := CONF_SPEED_RANGE_MIN config in
  let high := CONF_SPEED_RANGE_MAX config in
  is_valid (speed_range_schema config) = (0 <? low) && (low <? high).
Proof.
  intros low high. subst low high.
  destruct (Z.ltb_spec 0 (CONF_SPEED_RANGE_MIN config)) as [Hlo|Hlo];
    destruct (Z.ltb_spec (CONF_SPEED_RANGE_MIN config)
                (CONF_SPEED_RANGE_MAX config)) as [Hhi|Hhi]; cbn [andb].
  1: now rewrite (speed_range_schema_valid config (conj Hlo Hhi)).
  all: destruct (speed_range_schema_invalid config) as [msg E]; [lia|];
    now rewrite E.
Qed.

(** The validator of this module, taken alone, lets a negative minimum
    through: it is the schema before it that refuses it. *)
Lemma valid_speed_range_configuration_alone (config : ConfigType) :
  CONF_SPEED_RANGE_MIN config < 0 ->
  CONF_SPEED_RANGE_MIN config < CONF_SPEED_RANGE_MAX config ->
  valid_speed_range_configuration config = Valid config.
Proof.
  intros Hneg Hlt. unfold valid_speed_range_configuration.
  destruct (Z.eqb_spec (CONF_SPEED_RANGE_MIN config) 0); [lia|].
  destruct (Z.geb_spec (CONF_SPEED_RANGE_MIN config)
              (CONF_SPEED_RANGE_MAX config)); [lia|].
  reflexivity.
Qed.

End Configuration.

(** Unfolds an operation down to the monad's primitives. *)
Ltac unfold_op :=
  unfold run_command, handler, async_turn_on, async_turn_off,
    async_set_percentage, async_set_preset_mode, async_oscillate,
    _valid_preset_mode_or_raise, publish_on, async_publish,
    state_received, percentage_received, preset_mode_received,
    oscillation_received, bind, get_self, modify, emit, ret, raise in *.

Section Outbound.

Context `{Collaborators}.

(** ** Optimism *)

(** The four flags [_setup_from_config] computes are the optimism rule. *)
Lemma optimistic_flag_setup (config : ConfigType) (st : FanState)
    (ch : Channel) :
  optimistic_flag (_setup_from_config config st) ch
  = channel_optimistic config ch.
Proof. destruct ch; reflexivity. Qed.

Lemma with_state_setup (config : ConfigType) (st : FanState)
    (f : FanState -> FanState) :
  with_state f (_setup_from_config config st)
  = _setup_from_config config (f st).
Proof. reflexivity. Qed.

(** C7, as the code has it. The exposed assumed-state flag is the optimism
    of the power channel: it is true if and only if the global optimistic
    flag is set or the power state topic is not configured, whatever the
    three other channels are. *)
Theorem assumed_state_power (config : ConfigType) (st : FanState) :
  assumed_state (_setup_from_config config st)
  = CONF_OPTIMISTIC config || is_None (CONF_TOPIC config CONF_STATE_TOPIC).
Proof. reflexivity. Qed.

(** So the flag is true only if some channel is optimistic. *)
Lemma assumed_state_some_channel (config : ConfigType) (st : FanState) :
  assumed_state (_setup_from_config config st) = true ->
  exists ch, channel_optimistic config ch = true.
Proof. intros E. exists Power. exact E. Qed.

(** ** The commands, one channel at a time *)

(** A command that returns has published once and, on an optimistic
    channel, echoed the commanded value and told the host at once. *)
Lemma run_command_returned (config : ConfigType) (st : FanState)
    (tr : list Event) (cmd : Command) (w' : World) :
  run_command cmd {| fan := _setup_from_config config st; trace := tr |}
  = (Returned tt, w') ->
  exists ev,
    is_publish ev = true
    /\ w' = {| fan := _setup_from_config config
                        (if channel_optimistic config (channel_of cmd)
                         then echo cmd st else st);
               trace := tr ++ ev ::
                        (if channel_optimistic config (channel_of cmd)
                         then [EvWriteHaState] else []) |}.
Proof.
  destruct cmd; unfold_op; cbn [fan trace];
    repeat match goal with
      | |- context [Py.str_in ?m ?l] => destruct (Py.str_in m l)
      | |- context [transport ?t] => destruct (transport t)
      end;
    try discriminate; cbn [fan trace];
    rewrite ?optimistic_flag_setup;
    lazymatch goal with
    | |- context [tr ++ [?e]] => intros E; exists e
    end;
    (split; [reflexivity|]);
    revert E;
    change (_optimistic (_setup_from_config config st))
      with (channel_optimistic config Power);
    change (_optimistic_percentage (_setup_from_config config st))
      with (channel_optimistic config Percentage);
    change (_optimistic_preset_mode (_setup_from_config config st))
      with (channel_optimistic config PresetMode);
    change (_optimistic_oscillation (_setup_from_config config st))
      with (channel_optimistic config Oscillation);
    cbn [channel_of];
    destruct (channel_optimistic config _); cbn [fan trace];
    intros E; injection E as <-; rewrite <- ?app_assoc; reflexivity.
Qed.

(** A command returns when the transport takes its publish and, for a
    preset mode, the mode is one of the entity's. *)
Lemma run_command_returns (self : MqttFan) (tr : list Event)
    (cmd : Command) :
  (forall t, transport t = true) ->
  (forall m, cmd = SetPresetMode m -> In m (preset_modes self)) ->
  fst (run_command cmd {| fan := self; trace := tr |}) = Returned tt.
Proof.
  intros Hok Hmode.
  destruct cmd; unfold_op; cbn [fan trace];
    try (rewrite (proj2 (str_in_In _ _) (Hmode _ eq_refl)); cbn [fan trace]);
    rewrite Hok;
    repeat match goal with
      | |- context [if ?b then _ else _] => destruct b
      end; reflexivity.
Qed.


(** Turning on with arguments: when the whole command returns, the power
    channel is echoed, after the nested commands, if and only if it is
    optimistic. *)
Lemma turn_on_returned (config : ConfigType) (st : FanState)
    (tr : list Event) (percentage : option Z) (preset_mode : option string)
    (w' : World) :
  async_turn_on percentage preset_mode
    {| fan := _setup_from_config config st; trace := tr |}
  = (Returned tt, w') ->
  _attr_is_on (state (fan w'))
  = (if channel_optimistic config Power then Some true else _attr_is_on st)
  /\ (channel_optimistic config Power = true ->
      exists tr', trace w' = tr' ++ [EvWriteHaState]).
Proof.
  remember (_setup_from_config config st) as self eqn:Hself.
  assert (Hst : state self = st) by (subst; reflexivity).
  assert (Hopt : _optimistic self = channel_optimistic config Power)
    by (subst; reflexivity).
  rewrite <- Hopt, <- Hst. clear Hself Hst Hopt.
  destruct percentage as [p|], preset_mode as [m|]; unfold_op;
    repeat first
      [ progress cbn [fan trace with_state state _optimistic
                      _optimistic_percentage _optimistic_preset_mode]
      | match goal with
        | |- context [transport ?t] => destruct (transport t)
        | |- context [Py.str_in ?x ?l] => destruct (Py.str_in x l)
        | |- context [if ?b then _ else _] => destruct b eqn:?
        end ];
    try discriminate;
    intros E; injection E as <-; cbn; (split; [reflexivity|]);
    intros; try discriminate; eexists; reflexivity.
Qed.

(** C4. For every string that is not in the configured preset modes,
    setting it as the preset mode raises the invalid-preset error,
    publishes nothing and leaves every attribute of the state, and the
    trace, as they were. *)
Theorem set_preset_mode_not_configured (config : ConfigType)
    (st : FanState) (tr : list Event) (preset_mode : string) :
  ~ In preset_mode (CONF_PRESET_MODES_LIST config) ->
  let w := {| fan := _setup_from_config config st; trace := tr |} in
  async_set_preset_mode preset_mode w
  = (Raised (InvalidPresetError preset_mode), w).
Proof.
  intros Hn w. subst w. unfold_op. cbn [fan trace].
  replace (Py.str_in preset_mode
             (preset_modes (_setup_from_config config st))) with false.
  - reflexivity.
  - unfold preset_modes. cbn [_attr_preset_modes _setup_from_config].
    destruct (key_in config CONF_PRESET_MODE_COMMAND_TOPIC).
    + symmetry. now apply str_in_not_In.
    + reflexivity.
Qed.

End Outbound.

Section Inbound.

Context `{Collaborators}.

(** ** The handlers against the specification's [onMessage] *)

(** Every handler returns, and does what the verdict on the payload says:
    a transition is written and notified; a payload that is none of the
    literals of the power or oscillation channel is notified all the same;
    a dropped payload changes nothing. *)
Lemma handler_onMessage (self : MqttFan) (tr : list Event) (ch : Channel)
    (raw : string) :
  handler ch raw {| fan := self; trace := tr |}
  = (Returned tt,
     match onMessage self ch raw with
     | Accepted delta =>
         {| fan := with_state delta self;
            trace := tr ++ [if (_value_templates self ATTR_PRESET_MODE raw
                                =? _payload self PRESET_MODE_RESET)%string
                               && match ch with PresetMode => true
                                              | _ => false end
                            then EvWriteHaState else EvWriteStateRequest] |}
     | Unrecognised => {| fan := self; trace := tr ++ [EvWriteStateRequest] |}
     | Dropped => {| fan := self; trace := tr |}
     end).
Proof.
  destruct ch; unfold_op; unfold onMessage; cbn [fan trace template_key];
    rewrite ?truthy_str_eqb, ?negb_involutive, ?str_in_nil_or, ?andb_false_r.
  - destruct (_ =? "")%string; [reflexivity|].
    repeat (destruct (_ =? _)%string; [reflexivity|]). reflexivity.
  - destruct (_ =? "")%string; [reflexivity|].
    destruct (_ =? _)%string; [reflexivity|].
    destruct (int _) as [n|]; [|reflexivity].
    destruct (Z.ltb_spec (ranged_value_to_percentage (_speed_range self) n) 0);
      destruct (Z.gtb_spec (ranged_value_to_percentage (_speed_range self) n)
                  100);
      destruct (Z.leb_spec 0
                  (ranged_value_to_percentage (_speed_range self) n));
      destruct (Z.leb_spec
                  (ranged_value_to_percentage (_speed_range self) n) 100);
      try lia; reflexivity.
  - destruct (_ =? _payload self PRESET_MODE_RESET)%string; [reflexivity|].
    destruct (_ =? "")%string; [reflexivity|].
    destruct (Py.str_in _ _); reflexivity.
  - destruct (_ =? "")%string; [reflexivity|].
    repeat (destruct (_ =? _)%string; [reflexivity|]). reflexivity.
Qed.

Lemma onMessage_Unrecognised (self : MqttFan) (ch : Channel) (raw : string) :
  onMessage self ch raw = Unrecognised -> ch = Power \/ ch = Oscillation.
Proof.
  destruct ch; [now left | | | now right]; unfold onMessage;
    repeat match goal with
      | |- context [if ?b then _ else _] => destruct b
      | |- context [match ?o with Some _ => _ | None => _ end] => destruct o
      end; discriminate.
Qed.

(** C2, as the code has it. For every inbound message on any of the four
    state channels the handler returns; an accepted transition (a reset to
    unknown included) is written and triggers exactly one state-change
    notification; a dropped payload (empty, unparseable, out of range, not
    a preset mode) changes nothing and triggers none; a payload that is not
    empty and is none of the literals, which only the power and oscillation
    channels have, changes nothing and still triggers exactly one. *)
Theorem handler_notifications (self : MqttFan) (tr : list Event)
    (ch : Channel) (raw : string) :
  exists w',
    handler ch raw {| fan := self; trace := tr |} = (Returned tt, w')
    /\ match onMessage self ch raw with
       | Accepted delta =>
           fan w' = with_state delta self
           /\ notifications (trace w') = S (notifications tr)
       | Unrecognised =>
           (ch = Power \/ ch = Oscillation)
           /\ fan w' = self
           /\ notifications (trace w') = S (notifications tr)
       | Dropped => w' = {| fan := self; trace := tr |}
       end.
Proof.
  eexists. split; [apply handler_onMessage|].
  destruct (onMessage self ch raw) eqn:E; cbn [fan trace].
  - split; [reflexivity|]. rewrite notifications_app.
    destruct (_ && _); cbn; lia.
  - split; [exact (onMessage_Unrecognised _ _ _ E)|].
    split; [reflexivity|]. rewrite notifications_app. cbn. lia.
  - reflexivity.
Qed.

(** C5. For every inbound percentage payload whose rendered value the
    handler gets to parse, one that is not the percentage reset literal, and
    which fails integer parsing or is remapped outside [0, 100], the handler
    leaves the entity, its percentage included, exactly as it was (the value
    is dropped, never clamped) and emits no notification.  An empty payload
    is dropped before any of this. *)
Theorem percentage_received_rejects (self : MqttFan) (tr : list Event)
    (raw : string) :
  let rendered := _value_templates self ATTR_PERCENTAGE raw in
  rendered <> _payload self PERCENTAGE_RESET ->
  (int rendered = None
   \/ exists n, int rendered = Some n
                /\ ~ 0 <= ranged_value_to_percentage (_speed_range self) n
                     <= 100) ->
  percentage_received raw {| fan := self; trace := tr |}
  = (Returned tt, {| fan := self; trace := tr |}).
Proof.
  intros rendered Hreset Hbad.
  change (percentage_received raw) with (handler Percentage raw).
  rewrite handler_onMessage. unfold onMessage. cbn [template_key].
  fold rendered.
  destruct (rendered =? "")%string; [reflexivity|].
  destruct (String.eqb_spec rendered (_payload self PERCENTAGE_RESET));
    [contradiction|].
  destruct Hbad as [-> | [k [-> Hout]]]; [reflexivity|].
  destruct (Z.leb_spec 0 (ranged_value_to_percentage (_speed_range self) k));
    destruct (Z.leb_spec (ranged_value_to_percentage (_speed_range self) k)
                100); try lia; reflexivity.
Qed.

(** C6, as the code has it. Whatever the state was, an inbound payload
    whose rendered value is the percentage reset literal, that literal not
    being empty, sets the percentage to unknown and notifies, on the
    percentage channel; and, whatever the percentage reset literal is, an
    inbound payload whose rendered value is the preset reset literal sets
    the preset mode to unknown and notifies, on the preset channel. *)
Theorem reset_literals (self : MqttFan) (tr : list Event) :
  (forall raw,
      _value_templates self ATTR_PERCENTAGE raw
      = _payload self PERCENTAGE_RESET ->
      _payload self PERCENTAGE_RESET <> "" ->
      percentage_received raw {| fan := self; trace := tr |}
      = (Returned tt, {| fan := with_state (set_percentage None) self;
                         trace := tr ++ [EvWriteStateRequest] |}))
  /\ (forall raw,
        _value_templates self ATTR_PRESET_MODE raw
        = _payload self PRESET_MODE_RESET ->
        preset_mode_received raw {| fan := self; trace := tr |}
        = (Returned tt, {| fan := with_state (set_preset_mode None) self;
                           trace := tr ++ [EvWriteHaState] |})).
Proof.
  split.
  - intros raw Hpercentage Hnonempty.
    change (percentage_received raw) with (handler Percentage raw).
    rewrite handler_onMessage. unfold onMessage. cbn [template_key].
    rewrite Hpercentage, andb_false_r.
    destruct (String.eqb_spec (_payload self PERCENTAGE_RESET) "");
      [contradiction|].
    now rewrite String.eqb_refl.
  - intros raw Hpreset.
    change (preset_mode_received raw) with (handler PresetMode raw).
    rewrite handler_onMessage. unfold onMessage. cbn [template_key].
    rewrite Hpreset. now rewrite String.eqb_refl.
Qed.

End Inbound.

Section Scenarios.

Context `{Collaborators}.

(** C8. With the speed range (1, 100), the global optimistic flag false and
    no percentage state topic, setting the percentage to 42 publishes the
    native speed 42 (as the command template renders it) on the percentage
    command topic, 42 being the remap of 42 over (1, 100) rounded up, and
    afterwards the state's percentage is 42 and the host has been notified
    once. *)
Theorem set_percentage_scenario (config : ConfigType) (st : FanState)
    (tr : list Event) :
  CONF_SPEED_RANGE_MIN config = 1 ->
  CONF_SPEED_RANGE_MAX config = 100 ->
  CONF_OPTIMISTIC config = false ->
  CONF_TOPIC config CONF_PERCENTAGE_STATE_TOPIC = None ->
  Qeq (percentage_to_ranged_value (1, 100) 42)
      (Remap.percentage_to_ranged_value (1, 100) 42) ->
  let self := _setup_from_config config st in
  let request :=
    publish_event self CONF_PERCENTAGE_COMMAND_TOPIC
      (_command_templates self ATTR_PERCENTAGE (PayloadInt 42)) in
  transport (tr ++ [request]) = true ->
  Remap.remapFromPercentage 42 (1, 100) = 42
  /\ async_set_percentage 42 {| fan := self; trace := tr |}
     = (Returned tt,
        {| fan := _setup_from_config config (set_percentage (Some 42) st);
           trace := tr ++ [request; EvWriteHaState] |})
  /\ _attr_percentage (set_percentage (Some 42) st) = Some 42.
Proof.
  intros Hlow Hhigh Hoptimistic Htopic Hremap self request Hok.
  split; [reflexivity|]. split; [|reflexivity].
  subst self request. unfold_op. unfold publish_event in Hok.
  cbn [fan trace _setup_from_config _speed_range _topic _config
       _command_templates _optimistic_percentage] in *.
  rewrite Hlow, Hhigh.
  replace (Py.ceil (percentage_to_ranged_value (1, 100) 42)) with 42
    by (unfold Py.ceil; now rewrite Hremap).
  rewrite Hok.
  cbn [fan trace _setup_from_config _optimistic_percentage].
  rewrite Hoptimistic, Htopic.
  cbn [fan trace orb is_None]. rewrite <- app_assoc. reflexivity.
Qed.

(** *** When the transport takes every publish *)

Hypothesis transport_accepts : forall t, transport t = true.

Lemma publish_on_accepted (key : TopicKey) (payload : PublishPayloadType)
    (w : World) :
  publish_on key payload w
  = (Returned tt,
     {| fan := fan w;
        trace := trace w ++ [publish_event (fan w) key payload] |}).
Proof.
  unfold_op. cbn [fan trace]. now rewrite transport_accepts.
Qed.

Lemma async_set_percentage_accepted (percentage : Z) (w : World) :
  async_set_percentage percentage w
  = (Returned tt,
     if _optimistic_percentage (fan w) then
       {| fan := with_state (set_percentage (Some percentage)) (fan w);
          trace := trace w
                   ++ [percentage_command (fan w) percentage; EvWriteHaState] |}
     else
       {| fan := fan w;
          trace := trace w ++ [percentage_command (fan w) percentage] |}).
Proof.
  unfold async_set_percentage, bind, get_self.
  rewrite publish_on_accepted. cbn [fan trace].
  destruct (_optimistic_percentage (fan w)); unfold_op; cbn [fan trace];
    rewrite <- ?app_assoc; reflexivity.
Qed.

Lemma async_set_preset_mode_accepted (preset_mode : string) (w : World) :
  Py.str_in preset_mode (preset_modes (fan w)) = true ->
  async_set_preset_mode preset_mode w
  = (Returned tt,
     if _optimistic_preset_mode (fan w) then
       {| fan := with_state (set_preset_mode (Some preset_mode)) (fan w);
          trace := trace w
                   ++ [preset_mode_command (fan w) preset_mode;
                       EvWriteHaState] |}
     else
       {| fan := fan w;
          trace := trace w ++ [preset_mode_command (fan w) preset_mode] |}).
Proof.
  intros Hin.
  unfold async_set_preset_mode, _valid_preset_mode_or_raise, bind, get_self.
  rewrite Hin. cbn [ret]. rewrite publish_on_accepted. cbn [fan trace].
  destruct (_optimistic_preset_mode (fan w)); unfold_op; cbn [fan trace];
    rewrite <- ?app_assoc; reflexivity.
Qed.

(** C10. Turning the fan on with a percentage of 0 is turning it on with
    no percentage, and with an empty preset mode is turning it on with no
    preset mode: nothing is forwarded.  When every publish goes through and
    the preset mode, if one is given, is one of the entity's, the command
    returns, and after the publish of the on payload the percentage
    command is published if and only if the percentage argument is truthy,
    and the preset mode command if and only if the preset mode argument is
    truthy. *)
Theorem turn_on_forwards_truthy (config : ConfigType) (st : FanState)
    (tr : list Event) (percentage : option Z) (preset_mode : option string) :
  let self := _setup_from_config config st in
  let w := {| fan := self; trace := tr |} in
  (forall m, preset_mode = Some m -> m = "" \/ In m (preset_modes self)) ->
  fst (async_turn_on percentage preset_mode w) = Returned tt
  /\ publishes (trace (snd (async_turn_on percentage preset_mode w)))
     = publishes tr
       ++ [power_command self STATE_ON]
       ++ (if given_percentage percentage
           then map (percentage_command self) (given percentage) else [])
       ++ (if given_preset_mode preset_mode
           then map (preset_mode_command self) (given preset_mode) else [])
  /\ async_turn_on (Some 0) preset_mode w = async_turn_on None preset_mode w
  /\ async_turn_on percentage (Some "") w = async_turn_on percentage None w.
Proof.
  intros self w Hmode.
  assert (Hvalid : forall m, preset_mode = Some m -> Py.truthy_str m = true ->
                             Py.str_in m (preset_modes self) = true).
  { intros m E Ht. destruct (Hmode m E) as [-> | Hin]; [discriminate|].
    now apply str_in_In. }
  assert (Hrun : exists w',
    async_turn_on percentage preset_mode w = (Returned tt, w')
    /\ publishes (trace w')
       = publishes tr
         ++ [power_command self STATE_ON]
         ++ (if given_percentage percentage
             then map (percentage_command self) (given percentage) else [])
         ++ (if given_preset_mode preset_mode
             then map (preset_mode_command self) (given preset_mode)
             else [])).
  { subst w. unfold async_turn_on, bind, get_self.
    rewrite publish_on_accepted. cbn [fan trace].
    destruct percentage as [p|]; cbn [given_percentage Py.truthy_opt given map];
      [destruct (Py.truthy_int p)|];
      rewrite ?async_set_percentage_accepted; cbn [ret fan trace].
    all: destruct preset_mode as [m|];
      cbn [given_preset_mode Py.truthy_opt given map];
      [destruct (Py.truthy_str m) eqn:Et|].
    all: repeat first
      [ rewrite async_set_preset_mode_accepted
          by (cbn [fan]; exact (Hvalid m eq_refl Et))
      | progress cbn [fan trace ret with_state _optimistic
                      _optimistic_percentage _optimistic_preset_mode]
      | match goal with
        | |- context [if ?b then _ else _] => destruct b eqn:?
        end ].
    all: unfold modify, emit, ret; cbn [fan trace];
      eexists; (split; [reflexivity|]); cbn [trace];
      rewrite ?publishes_app; cbn [app]; rewrite <- ?app_assoc;
      reflexivity. }
  destruct Hrun as [w' [-> Htrace]].
  split; [reflexivity|]. split; [exact Htrace|]. split; reflexivity.
Qed.


End Scenarios.


(** ** The remap and its round trip *)

Section Linear.

(** A linear remap onto [steps] native speeds after [offset]. *)
Variables steps offset : Z.
Hypothesis steps_positive : 0 < steps.

(** The ceiling of the outbound remap, in integers. *)
Lemma ceil_to_ranged (p : Z) :
  Py.ceil (Remap.to_ranged steps offset p) = offset - (- (p * steps)) / 100.
Proof.
  unfold Py.ceil, Remap.to_ranged.
  assert (E : (inject_Z p / 100 * inject_Z steps + inject_Z offset
               == (p * steps + offset * 100) # 100)%Q).
  { unfold Qeq, Qdiv, Qmult, Qplus, Qinv, inject_Z. cbn. ring. }
  rewrite E. unfold Qceiling, Qfloor, Qopp. cbn [Qnum Qden].
  replace (- (p * steps + offset * 100)) with (- (p * steps) + - offset * 100)
    by ring.
  rewrite Z.div_add by lia. lia.
Qed.

(** Rounding up overshoots by less than one native speed. *)
Lemma ceil_bounds (p : Z) :
  let c := - ((- (p * steps)) / 100) in
  p * steps <= 100 * c < p * steps + 100.
Proof.
  intros c. subst c.
  pose proof (Z.mul_div_le (- (p * steps)) 100 ltac:(lia)).
  pose proof (Z.mul_succ_div_gt (- (p * steps)) 100 ltac:(lia)).
  lia.
Qed.

(** The round trip of a percentage: it comes back no smaller, no further
    than the percentage one native speed is worth, and is sent out as the
    same native speed again. *)
Lemma round_trip (p : Z) :
  0 <= p <= 100 ->
  let native := Py.ceil (Remap.to_ranged steps offset p) in
  let q := Remap.to_percentage steps offset native in
  offset <= native <= offset + steps
  /\ p <= q <= 100
  /\ (q - p) * steps < 100
  /\ Py.ceil (Remap.to_ranged steps offset q) = native.
Proof.
  intros Hp native q. subst q native.
  rewrite !ceil_to_ranged. unfold Remap.to_percentage.
  pose proof (ceil_bounds p) as Hc. cbv zeta in Hc.
  set (c := - ((- (p * steps)) / 100)) in *.
  replace (offset - (- (p * steps)) / 100) with (offset + c) by (subst c; lia).
  replace (offset + c - offset) with c by ring.
  pose proof (Z.mul_div_le (c * 100) steps steps_positive) as Hq1.
  pose proof (Z.mul_succ_div_gt (c * 100) steps steps_positive) as Hq2.
  set (q := c * 100 / steps) in *.
  pose proof (ceil_bounds q) as Hd. cbv zeta in Hd.
  set (d := - ((- (q * steps)) / 100)) in *.
  assert (Hc0 : 0 <= c <= steps) by nia.
  assert (Hpq : p <= q) by nia.
  assert (Hq100 : q <= 100) by nia.
  assert (Herr : (q - p) * steps < 100) by nia.
  repeat split; try lia.
  replace (offset - (- (q * steps)) / 100) with (offset + d) by (subst d; lia).
  f_equal.
  destruct (Z_le_gt_dec steps 100) as [Hsmall | Hlarge].
  - nia.
  - assert (q = p) by nia. subst d c. congruence.
Qed.

(** With a hundred native speeds or more the round trip is exact. *)
Lemma round_trip_exact (p : Z) :
  0 <= p <= 100 -> 100 <= steps ->
  Remap.to_percentage steps offset (Py.ceil (Remap.to_ranged steps offset p))
  = p.
Proof.
  intros Hp Hsteps. destruct (round_trip p Hp) as (_ & Hq & Herr & _).
  cbv zeta in *. nia.
Qed.

End Linear.

(** C9, as the code has it. For every speed range with 0 < min < max, max
    below 2^40, and every integer percentage p in [0, 100], sending p out
    through the remap rounded up gives a native speed in [min - 1, max], and
    bringing it back through the inbound remap gives a percentage q in
    [p, 100] that exceeds p by less than the percentage one native speed is
    worth, 100 / (max - min + 1), and goes out as the same native speed as
    p.  So q is within one point of p when the range has fifty native speeds
    or more, and is p itself when it has a hundred or more. *)
Theorem remap_round_trip (low high p : Z) :
  0 < low < high ->
  high < 2 ^ 40 ->
  0 <= p <= 100 ->
  let native := Remap.remapFromPercentage p (low, high) in
  let q := Remap.remapToPercentage native (low, high) in
  low - 1 <= native <= high
  /\ p <= q <= 100
  /\ (q - p) * (high - low + 1) < 100
  /\ Remap.remapFromPercentage q (low, high) = native
  /\ (50 <= high - low + 1 -> q - p <= 1)
  /\ (100 <= high - low + 1 -> q = p).
Proof.
  intros Hrange _ Hp native q. subst q native.
  unfold Remap.remapFromPercentage, Remap.remapToPercentage,
    Remap.percentage_to_ranged_value, Remap.ranged_value_to_percentage.
  destruct (round_trip (high - low + 1) (low - 1) ltac:(lia) p Hp)
    as (Hn & Hq & He & Hs).
  cbv zeta in *.
  set (q := Remap.to_percentage (high - low + 1) (low - 1)
              (Py.ceil (Remap.to_ranged (high - low + 1) (low - 1) p))) in *.
  repeat split; try lia; try assumption; intros Hsteps; nia.
Qed.

(** C9: over the range (1, 3) the percentage 1 goes out as the native speed
    1 and comes back as 33, and over (1, 2) it comes back as 50: further
    than one unit from where it started. *)
Lemma remap_round_trip_counterexample :
  Remap.remapFromPercentage 1 (1, 3) = 1
  /\ Remap.remapToPercentage (Remap.remapFromPercentage 1 (1, 3)) (1, 3) = 33
  /\ Remap.remapToPercentage (Remap.remapFromPercentage 1 (1, 2)) (1, 2) = 50
  /\ ~ (Remap.remapToPercentage (Remap.remapFromPercentage 1 (1, 3)) (1, 3)
        - 1 <= 1).
Proof. repeat split. vm_compute. intros Hle. now apply Hle. Qed.

(** The written scenario's expression, with max - min steps from min, is not
    the helper's: for 42 over (1, 100) it is 43, where the helper gives 42. *)
Example written_expression :
  Py.ceil (Remap.to_ranged (100 - 1) 1 42) = 43
  /\ Remap.remapFromPercentage 42 (1, 100) = 42.
Proof. split; reflexivity. Qed.

(** ** Runs of the entity in the sample host *)

Section Runs.

#[local] Existing Instance Sample.host.


(** A preset mode the entity does not have. *)
Lemma set_preset_mode_not_configured_witness :
  ~ In "turbo" (CONF_PRESET_MODES_LIST Sample.config)
  /\ async_set_preset_mode "turbo" (Sample.world Sample.config)
     = (Raised (InvalidPresetError "turbo"), Sample.world Sample.config).
Proof.
  assert (Hn : ~ In "turbo" (CONF_PRESET_MODES_LIST Sample.config)).
  { cbn. intros [E | [E | []]]; discriminate E. }
  split; [exact Hn|].
  exact (set_preset_mode_not_configured (H := Sample.host) Sample.config Sample.half_speed []
           "turbo" Hn).
Defined.

(** Two percentage payloads that are dropped: one that is no integer, one
    that is remapped above 100. *)
Lemma percentage_received_rejects_witness :
  percentage_received "fast" (Sample.world Sample.config)
  = (Returned tt, Sample.world Sample.config)
  /\ percentage_received "250" (Sample.world Sample.config)
     = (Returned tt, Sample.world Sample.config).
Proof.
  split.
  - apply (percentage_received_rejects (H := Sample.host)
             (_setup_from_config Sample.config Sample.half_speed) [] "fast").
    + discriminate.
    + left. reflexivity.
  - apply (percentage_received_rejects (H := Sample.host)
             (_setup_from_config Sample.config Sample.half_speed) [] "250").
    + discriminate.
    + right. exists 250. split; [reflexivity|]. vm_compute.
      intros [_ Hle]. apply Hle. reflexivity.
Defined.

(** The two reset payloads. *)
Lemma reset_literals_witness :
  _attr_percentage
    (state (fan (snd (percentage_received "None" (Sample.world Sample.config)))))
  = None
  /\ _attr_preset_mode
       (state (fan (snd (preset_mode_received "None" (Sample.world Sample.config)))))
     = None.
Proof.
  destruct (reset_literals (H := Sample.host)
              (_setup_from_config Sample.config Sample.half_speed) [])
    as [Hpercentage Hpreset].
  unfold Sample.world.
  rewrite (Hpercentage "None" ltac:(reflexivity) ltac:(discriminate)).
  rewrite (Hpreset "None" ltac:(reflexivity)).
  split; reflexivity.
Defined.

(** The scenario in the sample host, whose helper is the remap over every
    integer of the range. *)
Lemma set_percentage_scenario_witness :
  async_set_percentage 42
    {| fan := _setup_from_config Sample.config_no_percentage_state
                Sample.half_speed;
       trace := [] |}
  = (Returned tt,
     {| fan := _setup_from_config Sample.config_no_percentage_state
                 (set_percentage (Some 42) Sample.half_speed);
        trace := [EvPublish (Some "fan/speed/set") (PayloadInt 42) 0 false
                    (Some "utf-8");
                  EvWriteHaState] |}).
Proof.
  exact (proj1 (proj2 (set_percentage_scenario (H := Sample.host)
                  Sample.config_no_percentage_state Sample.half_speed []
                  eq_refl eq_refl eq_refl eq_refl
                  ltac:(reflexivity) ltac:(reflexivity)))).
Defined.

(** A round trip over the range (1, 3): the percentage 1 goes out as the
    native speed 1 and comes back as 33, less than one native speed away. *)
Lemma remap_round_trip_witness :
  Remap.remapFromPercentage 1 (1, 3) = 1
  /\ Remap.remapToPercentage 1 (1, 3) = 33
  /\ (Remap.remapToPercentage (Remap.remapFromPercentage 1 (1, 3)) (1, 3) - 1)
     * (3 - 1 + 1) < 100.
Proof.
  split; [reflexivity|]. split; [reflexivity|].
  exact (proj1 (proj2 (proj2
           (remap_round_trip 1 3 1 ltac:(lia) ltac:(reflexivity)
              ltac:(lia))))).
Defined.

(** Turning on with a percentage of 0 and the preset mode eco. *)
Lemma turn_on_forwards_truthy_witness :
  publishes
    (trace (snd (async_turn_on (Some 0) (Some "eco") (Sample.world Sample.config))))
  = [EvPublish (Some "fan/set") (PayloadStr "ON") 0 false (Some "utf-8");
     EvPublish (Some "fan/preset/set") (PayloadStr "eco") 0 false
       (Some "utf-8")].
Proof.
  refine (proj1 (proj2 (turn_on_forwards_truthy (H := Sample.host)
            (fun _ => eq_refl)
            Sample.config Sample.half_speed [] (Some 0) (Some "eco") _))).
  intros m E. injection E as <-. right. left. reflexivity.
Defined.

(** *** Where the specification and the code part *)

(** C2: a payload that is none of the power literals changes nothing and
    is notified all the same. *)
Lemma handler_notifications_counterexample :
  let self := _setup_from_config Sample.config Sample.half_speed in
  let w' := snd (state_received "garbage" (Sample.world Sample.config)) in
  onMessage self Power "garbage" = Unrecognised
  /\ state (fan w') = Sample.half_speed
  /\ notifications (trace w') = 1%nat
  /\ notifications (trace w') <> 0%nat.
Proof. repeat split. discriminate. Qed.

(** The reset payload is looked for before any parsing: the default one,
    no integer, sets the percentage to unknown and is notified. *)
Example reset_before_parsing :
  let w' := snd (percentage_received "None" (Sample.world Sample.config)) in
  _attr_percentage (state (fan (Sample.world Sample.config))) = Some 50
  /\ _attr_percentage (state (fan w')) = None
  /\ notifications (trace w') = 1%nat.
Proof. repeat split. Qed.

(** C6: a reset payload configured empty never resets the percentage. *)
Lemma reset_literals_counterexample :
  let config := Sample.config_of Sample.topics ["eco"; "auto"] 1 100 "" in
  let self := _setup_from_config config Sample.half_speed in
  let w' := snd (percentage_received "" (Sample.world config)) in
  _value_templates self ATTR_PERCENTAGE "" = _payload self PERCENTAGE_RESET
  /\ _attr_percentage (state (fan w')) = Some 50
  /\ _attr_percentage (state (fan w')) <> None
  /\ notifications (trace w') = 0%nat.
Proof. repeat split. discriminate. Qed.

(** C7: the percentage channel is optimistic and the flag is false. *)
Lemma assumed_state_counterexample :
  let config := Sample.config_no_percentage_state in
  channel_optimistic config Percentage = true
  /\ assumed_state (_setup_from_config config Sample.half_speed) = false.
Proof. split; reflexivity. Qed.


End Runs.

(** * More of the entity *)

Section Commands.

Context `{Collaborators}.

(** ** Commands that raise *)

(** X1. A command on one channel that raises, whatever it raises, has left the
    entity as it was and notified nobody: it stopped before its publish, or
    right after the transport refused it. *)
Theorem run_command_raised (self : MqttFan) (tr : list Event)
    (cmd : Command) (e : Exn) (w' : World) :
  run_command cmd {| fan := self; trace := tr |} = (Raised e, w') ->
  fan w' = self
  /\ notifications (trace w') = notifications tr
  /\ (trace w' = tr
      \/ exists ev, is_publish ev = true /\ trace w' = tr ++ [ev]).
Proof.
  destruct cmd; unfold_op; cbn [fan trace];
    repeat first
      [ progress cbn [fan trace]
      | match goal with
        | |- context [Py.str_in ?m ?l] => destruct (Py.str_in m l)
        | |- context [transport ?t] => destruct (transport t)
        | |- context [if ?b then _ else _] => destruct b
        end ];
    try discriminate;
    intros E; injection E as <- <-; cbn [fan trace];
    (split; [reflexivity|]);
    rewrite ?notifications_app; cbn;
    (split; [lia|]);
    first [ left; reflexivity
          | right; eexists; split; [|reflexivity]; reflexivity ].
Qed.

(** X2. Turning on is not one step: whenever it raises, the on payload has been
    handed to the transport already, and the power attribute keeps the value
    it had, on an optimistic power channel too. *)
Theorem turn_on_raised (self : MqttFan) (tr : list Event)
    (percentage : option Z) (preset_mode : option string) (e : Exn)
    (w' : World) :
  async_turn_on percentage preset_mode {| fan := self; trace := tr |}
  = (Raised e, w') ->
  _attr_is_on (state (fan w')) = _attr_is_on (state self)
  /\ exists tr', trace w' = tr ++ power_command self STATE_ON :: tr'.
Proof.
  destruct percentage as [p|], preset_mode as [m|]; unfold_op;
    repeat first
      [ progress cbn [fan trace with_state state _optimistic
                      _optimistic_percentage _optimistic_preset_mode]
      | match goal with
        | |- context [transport ?t] => destruct (transport t)
        | |- context [Py.str_in ?x ?l] => destruct (Py.str_in x l)
        | |- context [if ?b then _ else _] => destruct b eqn:?
        end ];
    try discriminate;
    intros E; injection E as <- <-; cbn [fan trace state with_state];
    (split; [reflexivity|]);
    rewrite <- ?app_assoc; eexists; reflexivity.
Qed.

(** ** Commands and the state they start from *)

(** X3. What a command does outside the entity, its outcome and every event of
    its trace, does not depend on the state the fan is in: nothing is held
    back because the fan is already on, or at that speed. *)
Theorem commands_ignore_state (self : MqttFan) (st1 st2 : FanState)
    (tr : list Event) :
  let w1 := {| fan := in_state self st1; trace := tr |} in
  let w2 := {| fan := in_state self st2; trace := tr |} in
  (forall cmd,
      fst (run_command cmd w1) = fst (run_command cmd w2)
      /\ trace (snd (run_command cmd w1)) = trace (snd (run_command cmd w2)))
  /\ (forall percentage preset_mode,
        fst (async_turn_on percentage preset_mode w1)
        = fst (async_turn_on percentage preset_mode w2)
        /\ trace (snd (async_turn_on percentage preset_mode w1))
           = trace (snd (async_turn_on percentage preset_mode w2))).
Proof.
  intros w1 w2. subst w1 w2. unfold in_state. split.
  - intros cmd. destruct cmd; unfold_op;
      repeat first
        [ progress cbn [fan trace with_state state preset_modes
                        _attr_preset_modes _topic _config _payload
                        _command_templates _speed_range _optimistic
                        _optimistic_percentage _optimistic_preset_mode
                        _optimistic_oscillation]
        | match goal with
          | |- context [transport ?t] => destruct (transport t)
          | |- context [Py.str_in ?x ?l] => destruct (Py.str_in x l)
          | |- context [if ?b then _ else _] => destruct b eqn:?
          end ];
      split; reflexivity.
  - intros percentage preset_mode.
    destruct percentage as [p|], preset_mode as [m|]; unfold_op;
      repeat first
        [ progress cbn [fan trace with_state state preset_modes
                        _attr_preset_modes _topic _config _payload
                        _command_templates _speed_range _optimistic
                        _optimistic_percentage _optimistic_preset_mode
                        _optimistic_oscillation]
        | match goal with
          | |- context [transport ?t] => destruct (transport t)
          | |- context [Py.str_in ?x ?l] => destruct (Py.str_in x l)
          | |- context [if ?b then _ else _] => destruct b eqn:?
          end ];
      split; reflexivity.
Qed.

End Commands.

Section Messages.

Context `{Collaborators}.

(** ** Inbound messages, one after the other *)

(** Reduces the projections of an entity whose state was written. *)
Ltac fan_fields :=
  unfold with_state;
  cbn [_config _speed_range _topic _payload _feature_percentage
       _feature_preset_mode _attr_preset_modes _attr_speed_count _optimistic
       _optimistic_oscillation _optimistic_percentage _optimistic_preset_mode
       _attr_supported_features _command_templates _value_templates state].

Lemma with_state_id (self : MqttFan) :
  with_state (fun st => st) self = self.
Proof. destruct self; reflexivity. Qed.

(** A handler returns, writes the transition and appends the notifications. *)
Lemma handler_run (self : MqttFan) (tr : list Event) (ch : Channel)
    (raw : string) :
  handler ch raw {| fan := self; trace := tr |}
  = (Returned tt, {| fan := with_state (transition self ch raw) self;
                     trace := tr ++ notified self ch raw |}).
Proof.
  rewrite handler_onMessage. unfold transition, notified.
  destruct (onMessage self ch raw); [| now rewrite with_state_id |].
  - destruct ch; rewrite ?andb_false_r, ?andb_true_r; try reflexivity.
    now destruct (_ =? _)%string.
  - now rewrite with_state_id, app_nil_r.
Qed.

(** Transition and notifications look at the setup of the entity only. *)
Lemma transition_with_state (self : MqttFan) (f : FanState -> FanState)
    (ch : Channel) (raw : string) :
  transition (with_state f self) ch raw = transition self ch raw
  /\ notified (with_state f self) ch raw = notified self ch raw.
Proof. destruct ch; split; reflexivity. Qed.

(** Breaks a transition or a notification list into the cases of the
    handler. *)
Ltac by_verdict :=
  unfold transition, notified, onMessage; cbn [template_key];
  repeat match goal with
    | |- context [if ?b then _ else _] => destruct b eqn:?
    | |- context [match ?o with Some _ => _ | None => _ end] =>
        destruct o eqn:?
    end.

Lemma notified_length (self : MqttFan) (ch : Channel) (raw : string) :
  publishes (notified self ch raw) = []
  /\ notifications (notified self ch raw)
     = List.length (notified self ch raw).
Proof. destruct ch; by_verdict; split; reflexivity. Qed.

(** Every transition of a channel is a write of that channel. *)
Lemma transition_channel_write (self : MqttFan) (ch : Channel)
    (raw : string) :
  channel_write self ch (transition self ch raw).
Proof.
  destruct ch; by_verdict; try constructor.
  - repeat match goal with
      | E : (_ && _) = true |- _ => apply andb_prop in E; destruct E
      | E : (_ <=? _) = true |- _ => apply Z.leb_le in E
      end.
    lia.
  - now apply str_in_In.
Qed.

Lemma transition_idempotent (self : MqttFan) (ch : Channel) (raw : string)
    (st : FanState) :
  transition self ch raw (transition self ch raw st)
  = transition self ch raw st.
Proof. now destruct (transition_channel_write self ch raw). Qed.

Lemma transition_commute (self : MqttFan) (ch1 ch2 : Channel)
    (raw1 raw2 : string) (st : FanState) :
  ch1 <> ch2 ->
  transition self ch1 raw1 (transition self ch2 raw2 st)
  = transition self ch2 raw2 (transition self ch1 raw1 st).
Proof.
  intros Hne.
  destruct (transition_channel_write self ch1 raw1);
    destruct (transition_channel_write self ch2 raw2);
    try contradiction; reflexivity.
Qed.

Lemma transition_percentage_in_scale (self : MqttFan) (ch : Channel)
    (raw : string) (st : FanState) :
  percentage_in_scale st -> percentage_in_scale (transition self ch raw st).
Proof.
  now destruct (transition_channel_write self ch raw).
Qed.

Lemma transition_preset_mode_known (self : MqttFan) (ch : Channel)
    (raw : string) (st : FanState) :
  preset_mode_known self st ->
  preset_mode_known self (transition self ch raw st).
Proof.
  now destruct (transition_channel_write self ch raw).
Qed.

(** The same, for a sequence of messages. *)
Lemma deliver_run (msgs : list (Channel * string)) :
  forall (self : MqttFan) (tr : list Event),
  exists f tr',
    deliver msgs {| fan := self; trace := tr |}
    = (Returned tt, {| fan := with_state f self; trace := tr ++ tr' |})
    /\ publishes tr' = []
    /\ (forall st, percentage_in_scale st -> percentage_in_scale (f st))
    /\ (forall st, preset_mode_known self st -> preset_mode_known self (f st)).
Proof.
  induction msgs as [| [ch raw] rest IH]; intros self tr.
  - exists (fun st => st), []. cbn [deliver]. unfold ret.
    rewrite with_state_id, app_nil_r. repeat split; trivial.
  - cbn [deliver]. unfold bind at 1. rewrite handler_run.
    destruct (IH (with_state (transition self ch raw) self)
                (tr ++ notified self ch raw))
      as (f & tr' & -> & Hpub & Hpct & Hpre).
    exists (fun st => f (transition self ch raw st)),
      (notified self ch raw ++ tr').
    rewrite app_assoc. split; [reflexivity|].
    split; [rewrite publishes_app, Hpub;
            now rewrite (proj1 (notified_length self ch raw))|].
    split.
    + intros st Hst. apply Hpct.
      now apply transition_percentage_in_scale.
    + intros st Hst.
      change (preset_mode_known
                (with_state (transition self ch raw) self)
                (f (transition self ch raw st))).
      apply Hpre.
      change (preset_mode_known self (transition self ch raw st)).
      now apply transition_preset_mode_known.
Qed.

(** X4. A payload delivered twice leaves the entity as the first delivery left
    it, and is notified a second time as it was the first: nothing is held
    back as a duplicate. *)
Theorem handler_twice (self : MqttFan) (tr : list Event) (ch : Channel)
    (raw : string) :
  let w1 := snd (handler ch raw {| fan := self; trace := tr |}) in
  let w2 := snd (handler ch raw w1) in
  fan w2 = fan w1
  /\ (notifications (trace w2) + notifications tr
      = 2 * notifications (trace w1))%nat.
Proof.
  intros w1 w2. subst w2 w1. rewrite handler_run. cbn [snd].
  rewrite handler_run. cbn [snd fan trace].
  destruct (transition_with_state self (transition self ch raw) ch raw)
    as [-> ->].
  split.
  - fan_fields. f_equal. apply transition_idempotent.
  - rewrite !notifications_app. lia.
Qed.

(** X5. Messages on two different channels may arrive in either order: the
    entity ends the same, with as many notifications. *)
Theorem handlers_commute (self : MqttFan) (tr : list Event)
    (ch1 ch2 : Channel) (raw1 raw2 : string) :
  ch1 <> ch2 ->
  let w := {| fan := self; trace := tr |} in
  let w12 := snd ((handler ch1 raw1 ;; handler ch2 raw2) w) in
  let w21 := snd ((handler ch2 raw2 ;; handler ch1 raw1) w) in
  fan w12 = fan w21
  /\ notifications (trace w12) = notifications (trace w21).
Proof.
  intros Hne w w12 w21. subst w12 w21 w. unfold bind.
  rewrite !handler_run.
  destruct (transition_with_state self (transition self ch1 raw1) ch2 raw2)
    as [-> ->].
  destruct (transition_with_state self (transition self ch2 raw2) ch1 raw1)
    as [-> ->].
  cbn [snd fan trace]. split.
  - fan_fields. f_equal. symmetry. now apply transition_commute.
  - rewrite !notifications_app. lia.
Qed.

(** X6. Whatever messages arrive, in whatever order, every one of them is
    handled without an exception, nothing is ever published in answer to
    them, and nothing of the entity but its state is touched: with the
    state put back, the entity is the one it was. *)
Theorem deliver_never_publishes (self : MqttFan) (tr : list Event)
    (msgs : list (Channel * string)) :
  exists w',
    deliver msgs {| fan := self; trace := tr |} = (Returned tt, w')
    /\ publishes (trace w') = publishes tr
    /\ in_state (fan w') (state self) = self.
Proof.
  destruct (deliver_run msgs self tr) as (f & tr' & -> & Hpub & _).
  eexists. split; [reflexivity|]. cbn [fan trace]. split.
  - now rewrite publishes_app, Hpub, app_nil_r.
  - destruct self; reflexivity.
Qed.

(** X7. A percentage within [0, 100], or unknown, stays so through every
    sequence of inbound messages. *)
Theorem deliver_percentage_in_scale (self : MqttFan) (tr : list Event)
    (msgs : list (Channel * string)) :
  percentage_in_scale (state self) ->
  percentage_in_scale
    (state (fan (snd (deliver msgs {| fan := self; trace := tr |})))).
Proof.
  intros Hst. destruct (deliver_run msgs self tr) as (f & tr' & -> & _ & Hpct & _).
  cbn [snd fan state with_state]. now apply Hpct.
Qed.

(** X8. A preset mode that is one of the entity's, or unknown, stays so through
    every sequence of inbound messages. *)
Theorem deliver_preset_mode_known (self : MqttFan) (tr : list Event)
    (msgs : list (Channel * string)) :
  preset_mode_known self (state self) ->
  preset_mode_known self
    (state (fan (snd (deliver msgs {| fan := self; trace := tr |})))).
Proof.
  intros Hst. destruct (deliver_run msgs self tr) as (f & tr' & -> & _ & _ & Hpre).
  cbn [snd fan state with_state]. now apply Hpre.
Qed.

End Messages.

Section Setup.

Context `{Collaborators}.

(** ** What the setup makes of the configuration *)

(** X9. When the three features are three different bits, the supported
    features hold the bit of a capability exactly when its command topic is
    configured, and no other bit. *)
Theorem supported_features_bits (config : ConfigType) (st : FanState)
    (i j k : Z) :
  0 <= i -> 0 <= j -> 0 <= k ->
  i <> j -> i <> k -> j <> k ->
  OSCILLATE = 2 ^ i -> SET_SPEED = 2 ^ j -> PRESET_MODE = 2 ^ k ->
  let features := _attr_supported_features (_setup_from_config config st) in
  Z.testbit features i = key_in config CONF_OSCILLATION_COMMAND_TOPIC
  /\ Z.testbit features j = key_in config CONF_PERCENTAGE_COMMAND_TOPIC
  /\ Z.testbit features k = key_in config CONF_PRESET_MODE_COMMAND_TOPIC
  /\ forall n, n <> i -> n <> j -> n <> k -> Z.testbit features n = false.
Proof.
  intros Hi Hj Hk Hij Hik Hjk HO HS HP features. subst features.
  cbn [_attr_supported_features _setup_from_config]. unfold key_in.
  rewrite HO, HS, HP.
  destruct (is_None (CONF_TOPIC config CONF_OSCILLATION_COMMAND_TOPIC));
    destruct (is_None (CONF_TOPIC config CONF_PERCENTAGE_COMMAND_TOPIC));
    destruct (is_None (CONF_TOPIC config CONF_PRESET_MODE_COMMAND_TOPIC));
    cbn [negb];
    repeat split; try intros n Hni Hnj Hnk;
    rewrite ?Z.lor_spec, ?Z.pow2_bits_eqb, ?Z.testbit_0_l by assumption;
    repeat match goal with
      | |- context [?a =? ?b] => destruct (Z.eqb_spec a b); try lia
      end;
    reflexivity.
Qed.

(** X10. A preset mode of a validated configuration that has a preset command
    topic, when it is not the empty string, is accepted from the preset
    state topic: the reset payload cannot stand in its way. *)
Theorem configured_preset_mode_received (config : ConfigType)
    (st : FanState) (tr : list Event) (raw m : string) :
  valid_preset_mode_configuration config = Valid config ->
  key_in config CONF_PRESET_MODE_COMMAND_TOPIC = true ->
  In m (CONF_PRESET_MODES_LIST config) ->
  m <> "" ->
  let self := _setup_from_config config st in
  _value_templates self ATTR_PRESET_MODE raw = m ->
  preset_mode_received raw {| fan := self; trace := tr |}
  = (Returned tt,
     {| fan := _setup_from_config config (set_preset_mode (Some m) st);
        trace := tr ++ [EvWriteStateRequest] |}).
Proof.
  intros Hvalid Hkey Hin Hne self Hrendered. subst self.
  change (preset_mode_received raw) with (handler PresetMode raw).
  rewrite handler_onMessage. unfold onMessage. cbn [template_key].
  rewrite Hrendered, andb_true_r.
  unfold preset_modes.
  cbn [_attr_preset_modes _payload _setup_from_config]. rewrite Hkey.
  unfold valid_preset_mode_configuration in Hvalid.
  destruct (Py.str_in (CONF_PAYLOAD_RESET_PRESET_MODE config)
              (CONF_PRESET_MODES_LIST config)) eqn:Ereset; [discriminate|].
  destruct (String.eqb_spec m (CONF_PAYLOAD_RESET_PRESET_MODE config))
    as [-> | _].
  - apply str_in_In in Hin. congruence.
  - destruct (String.eqb_spec m ""); [contradiction|].
    rewrite (proj2 (str_in_In _ _) Hin). reflexivity.
Qed.

(** X11. Without a preset command topic the entity has no preset modes, whatever
    the configured list: every payload on the preset state topic that is
    not the reset payload is dropped. *)
Theorem preset_mode_received_without_command_topic (config : ConfigType)
    (st : FanState) (tr : list Event) (raw : string) :
  CONF_TOPIC config CONF_PRESET_MODE_COMMAND_TOPIC = None ->
  let self := _setup_from_config config st in
  _value_templates self ATTR_PRESET_MODE raw
  <> CONF_PAYLOAD_RESET_PRESET_MODE config ->
  preset_modes self = []
  /\ preset_mode_received raw {| fan := self; trace := tr |}
     = (Returned tt, {| fan := self; trace := tr |}).
Proof.
  intros Htopic self Hreset. subst self.
  assert (Hmodes : preset_modes (_setup_from_config config st) = []).
  { unfold preset_modes.
    cbn [_attr_preset_modes _setup_from_config]. unfold key_in.
    now rewrite Htopic. }
  split; [exact Hmodes|].
  change (preset_mode_received raw) with (handler PresetMode raw).
  rewrite handler_onMessage. unfold onMessage. cbn [template_key].
  rewrite Hmodes.
  destruct (String.eqb_spec
              (_value_templates (_setup_from_config config st)
                 ATTR_PRESET_MODE raw)
              (_payload (_setup_from_config config st) PRESET_MODE_RESET))
    as [E | _]; [contradiction|].
  now destruct (_ =? "")%string.
Qed.

(** ** Subscriptions *)

(** X12. Preparing the subscriptions subscribes the state topics that are
    configured and no other, each once.  It resets the percentage and the
    preset mode to unknown and the oscillation to off exactly on the
    channels it subscribes, never writes whether the fan is on, and
    preparing again changes nothing more. *)
Theorem prepare_subscribe_topics (self : MqttFan) :
  let self' := fst (_prepare_subscribe_topics self) in
  let topics := snd (_prepare_subscribe_topics self) in
  (forall key t,
      In (key, t) topics
      <-> (exists ch, key = state_topic ch) /\ _topic self key = Some t)
  /\ NoDup (map fst topics)
  /\ state self'
     = {| _attr_is_on := _attr_is_on (state self);
          _attr_percentage :=
            if is_None (_topic self CONF_PERCENTAGE_STATE_TOPIC)
            then _attr_percentage (state self) else None;
          _attr_preset_mode :=
            if is_None (_topic self CONF_PRESET_MODE_STATE_TOPIC)
            then _attr_preset_mode (state self) else None;
          _attr_oscillating :=
            if is_None (_topic self CONF_OSCILLATION_STATE_TOPIC)
            then _attr_oscillating (state self) else Some false |}
  /\ _prepare_subscribe_topics self' = (self', topics).
Proof.
  intros self' topics. subst self' topics. unfold _prepare_subscribe_topics.
  cbn [fst snd].
  destruct (_topic self CONF_STATE_TOPIC) as [t1|] eqn:E1;
    destruct (_topic self CONF_PERCENTAGE_STATE_TOPIC) as [t2|] eqn:E2;
    destruct (_topic self CONF_PRESET_MODE_STATE_TOPIC) as [t3|] eqn:E3;
    destruct (_topic self CONF_OSCILLATION_STATE_TOPIC) as [t4|] eqn:E4;
    cbn [is_None app].
  all: split;
    [ intros key t; split;
      [ intros Hin; cbn in Hin;
        repeat (destruct Hin as [Hin | Hin];
                [injection Hin as <- <-; split;
                 [ first [ now exists Power | now exists Percentage
                         | now exists PresetMode | now exists Oscillation ]
                 | assumption ] |]);
        contradiction
      | intros [[ch ->] Ht]; destruct ch; cbn [state_topic] in Ht;
        rewrite Ht in *; try discriminate;
        repeat match goal with
          | E : Some _ = Some _ |- _ => injection E as ->
          end;
        cbn; tauto ]
    |].
  all: split; [cbn; repeat constructor; cbn; intuition discriminate|].
  all: split; [destruct self as [? ? ? ? ? ? ? ? ? ? ? ? ? ? ? []];
               reflexivity|].
  all: cbn [_topic with_state]; rewrite ?E1, ?E2, ?E3, ?E4; cbn [is_None app];
    reflexivity.
Qed.

(** X13. An entity that does not reckon a channel optimistic has subscribed to
    the channel's state topic: what it does not assume, it is told. *)
Theorem not_optimistic_subscribed (config : ConfigType) (st : FanState)
    (ch : Channel) :
  let self := _setup_from_config config st in
  optimistic_flag self ch = false ->
  exists t, In (state_topic ch, t) (snd (_prepare_subscribe_topics self)).
Proof.
  intros self Hflag. subst self. rewrite optimistic_flag_setup in Hflag.
  unfold channel_optimistic in Hflag. apply orb_false_elim in Hflag.
  destruct Hflag as [_ Htopic].
  destruct (CONF_TOPIC config (state_topic ch)) as [t|] eqn:E;
    [|discriminate].
  exists t. unfold _prepare_subscribe_topics. cbn [snd _topic _setup_from_config].
  destruct ch; cbn [state_topic] in E; rewrite E;
    rewrite ?in_app_iff; cbn; tauto.
Qed.

End Setup.

(** * The ecoforest answers *)

Module EcoforestFacts.

Import Ecoforest.

(** ** Splitting and stripping *)

Lemma split_not_nil (sep : ascii) (s : string) : PyStr.split sep s <> [].
Proof.
  destruct s as [|c s]; cbn; [discriminate|].
  destruct (Ascii.eqb c sep); [discriminate|].
  destruct (PyStr.split sep s); discriminate.
Qed.

(** Splitting what stands on both sides of a separator. *)
Lemma split_app (sep : ascii) (a b : string) :
  PyStr.split sep (a ++ String sep b)
  = PyStr.split sep a ++ PyStr.split sep b.
Proof.
  induction a as [|c a IH]; cbn.
  - now rewrite Ascii.eqb_refl.
  - destruct (Ascii.eqb c sep); [now rewrite IH|].
    rewrite IH. pose proof (split_not_nil sep a) as Hne.
    destruct (PyStr.split sep a); [contradiction | reflexivity].
Qed.

Lemma split_without (sep : ascii) (s : string) :
  PyStr.has sep s = false -> PyStr.split sep s = [s].
Proof.
  induction s as [|c s IH]; cbn; [reflexivity|].
  intros Hs. apply orb_false_elim in Hs. destruct Hs as [-> Hs].
  now rewrite (IH Hs).
Qed.

(** A text splits in two pieces or more exactly when it has the separator. *)
Lemma split_two (sep : ascii) (s : string) :
  match PyStr.split sep s with
  | _ :: _ :: _ => PyStr.has sep s = true
  | _ => PyStr.has sep s = false
  end.
Proof.
  induction s as [|c s IH]; cbn; [reflexivity|].
  destruct (Ascii.eqb c sep); cbn.
  - pose proof (split_not_nil sep s). now destruct (PyStr.split sep s).
  - destruct (PyStr.split sep s) as [|p [|q r]]; assumption.
Qed.

Lemma has_app (sep : ascii) (a b : string) :
  PyStr.has sep (a ++ b) = PyStr.has sep a || PyStr.has sep b.
Proof.
  induction a as [|c a IH]; cbn; [reflexivity|].
  now rewrite IH, orb_assoc.
Qed.

(** Taking a white space off the front keeps a character that stands in
    none. *)
Lemma has_after (sep : ascii) (w : string) :
  PyStr.has sep w = false ->
  forall s rest,
    PyStr.after w s = Some rest -> PyStr.has sep rest = PyStr.has sep s.
Proof.
  induction w as [|a w IH]; intros Hw s rest Hafter; cbn in Hafter.
  - now injection Hafter as <-.
  - destruct s as [|b s]; [discriminate|].
    cbn in Hw. apply orb_false_elim in Hw. destruct Hw as [Ha Hw].
    destruct (Ascii.eqb_spec a b) as [<-|]; [|discriminate].
    cbn. rewrite Ha. cbn. now apply IH.
Qed.

Lemma has_after_any (sep : ascii) (ws : list string) :
  forallb (fun w => negb (PyStr.has sep w)) ws = true ->
  forall s rest,
    PyStr.after_any ws s = Some rest -> PyStr.has sep rest = PyStr.has sep s.
Proof.
  induction ws as [|w ws IH]; intros Hws s rest Hafter; cbn in Hafter;
    [discriminate|].
  cbn in Hws. apply andb_prop in Hws. destruct Hws as [Hw Hws].
  apply negb_true_iff in Hw.
  destruct (PyStr.after w s) as [r|] eqn:E.
  - injection Hafter as <-. exact (has_after sep w Hw s r E).
  - now apply IH.
Qed.

Lemma has_lstrip_upto (sep : ascii) (n : nat) :
  PyStr.outside_white_space sep = true ->
  forall s, PyStr.has sep (PyStr.lstrip_upto n s) = PyStr.has sep s.
Proof.
  intros Hsep. induction n as [|n IH]; intros s; cbn [PyStr.lstrip_upto];
    [reflexivity|].
  destruct (PyStr.after_any PyStr.white_space s) as [rest|] eqn:E;
    [|reflexivity].
  rewrite IH. exact (has_after_any sep PyStr.white_space Hsep s rest E).
Qed.

(** Stripping keeps a character that stands in no white space. *)
Lemma has_lstrip (sep : ascii) (s : string) :
  PyStr.outside_white_space sep = true ->
  PyStr.has sep (PyStr.lstrip s) = PyStr.has sep s.
Proof. intros Hsep. now apply has_lstrip_upto. Qed.

Lemma lstrip_not_empty (sep : ascii) (s : string) :
  PyStr.outside_white_space sep = true ->
  PyStr.has sep s = true -> PyStr.lstrip s <> "".
Proof.
  intros Hsep Hs E. rewrite <- (has_lstrip sep s Hsep), E in Hs.
  discriminate Hs.
Qed.

Lemma rstrip_cons (c : ascii) (s : string) :
  PyStr.lstrip (String c s) <> "" ->
  PyStr.rstrip (String c s) = String c (PyStr.rstrip s).
Proof.
  intros Hne. cbn [PyStr.rstrip].
  destruct (PyStr.lstrip (String c s)); [contradiction | reflexivity].
Qed.

Lemma rstrip_all_space (c : ascii) (s : string) :
  PyStr.lstrip (String c s) = "" -> PyStr.rstrip (String c s) = "".
Proof. intros E. cbn [PyStr.rstrip]. now rewrite E. Qed.

Lemma has_rstrip (sep : ascii) (s : string) :
  PyStr.outside_white_space sep = true ->
  PyStr.has sep (PyStr.rstrip s) = PyStr.has sep s.
Proof.
  intros Hsep. induction s as [|c s IH]; [reflexivity|].
  destruct (PyStr.lstrip (String c s)) eqn:E.
  - rewrite (rstrip_all_space c s E).
    rewrite <- (has_lstrip sep (String c s) Hsep), E. reflexivity.
  - rewrite rstrip_cons by (rewrite E; discriminate).
    cbn [PyStr.has]. now rewrite IH.
Qed.

Lemma has_strip (sep : ascii) (s : string) :
  PyStr.outside_white_space sep = true ->
  PyStr.has sep (PyStr.strip s) = PyStr.has sep s.
Proof.
  intros Hsep. unfold PyStr.strip. now rewrite has_rstrip, has_lstrip.
Qed.

(** What is stripped behind a character that stands in no white space. *)
Lemma rstrip_app (sep : ascii) (a t : string) :
  PyStr.outside_white_space sep = true ->
  PyStr.rstrip (a ++ String sep t) = (a ++ String sep (PyStr.rstrip t))%string.
Proof.
  intros Hsep. induction a as [|c a IH]; cbn [append].
  - apply rstrip_cons, (lstrip_not_empty sep); [assumption|].
    cbn. now rewrite Ascii.eqb_refl.
  - rewrite rstrip_cons, IH; [reflexivity|].
    apply (lstrip_not_empty sep); [assumption|].
    cbn [PyStr.has]. rewrite has_app. cbn [PyStr.has].
    rewrite Ascii.eqb_refl. now rewrite !orb_true_r.
Qed.

(** The lengths of what is taken off and of what is left. *)
Lemma after_length (w : string) :
  forall s rest,
    PyStr.after w s = Some rest ->
    String.length s = (String.length w + String.length rest)%nat.
Proof.
  induction w as [|a w IH]; intros s rest Hafter; cbn in Hafter.
  - now injection Hafter as <-.
  - destruct s as [|b s]; [discriminate|].
    destruct (Ascii.eqb a b); [|discriminate].
    cbn. now rewrite (IH s rest Hafter).
Qed.

Lemma after_any_length (ws : list string) :
  forallb (fun w => negb (w =? "")%string) ws = true ->
  forall s rest,
    PyStr.after_any ws s = Some rest ->
    (String.length rest < String.length s)%nat.
Proof.
  induction ws as [|w ws IH]; intros Hws s rest Hafter; cbn in Hafter;
    [discriminate|].
  cbn in Hws. apply andb_prop in Hws. destruct Hws as [Hw Hws].
  destruct (PyStr.after w s) as [r|] eqn:E.
  - injection Hafter as <-. apply after_length in E.
    destruct w; [discriminate Hw|]. cbn in E. lia.
  - now apply IH.
Qed.

Lemma lstrip_upto_length (n : nat) :
  forall s, (String.length (PyStr.lstrip_upto n s) <= String.length s)%nat.
Proof.
  induction n as [|n IH]; intros s; cbn [PyStr.lstrip_upto]; [lia|].
  destruct (PyStr.after_any PyStr.white_space s) as [rest|] eqn:E; [|lia].
  pose proof (after_any_length PyStr.white_space eq_refl s rest E).
  pose proof (IH rest). lia.
Qed.

(** A text that stripping leaves as it is starts with no white space. *)
Lemma lstrip_fixed (s : string) :
  PyStr.lstrip s = s -> PyStr.after_any PyStr.white_space s = None.
Proof.
  intros Hs. destruct (PyStr.after_any PyStr.white_space s) as [rest|] eqn:E;
    [|reflexivity].
  pose proof (after_any_length PyStr.white_space eq_refl s rest E) as Hlt.
  unfold PyStr.lstrip in Hs.
  destruct (String.length s) as [|n] eqn:En; [lia|].
  cbn [PyStr.lstrip_upto] in Hs. rewrite E in Hs.
  pose proof (lstrip_upto_length n rest) as Hle.
  rewrite Hs, En in Hle. lia.
Qed.

Lemma after_app_none (sep : ascii) (w : string) :
  PyStr.has sep w = false ->
  forall s t,
    PyStr.after w s = None -> PyStr.after w (s ++ String sep t) = None.
Proof.
  induction w as [|a w IH]; intros Hw s t Hafter; cbn in Hafter;
    [discriminate|].
  cbn in Hw. apply orb_false_elim in Hw. destruct Hw as [Ha Hw].
  destruct s as [|b s]; cbn.
  - now rewrite Ha.
  - destruct (Ascii.eqb a b); [now apply IH | reflexivity].
Qed.

Lemma after_any_app_none (sep : ascii) (ws : list string) :
  forallb (fun w => negb (PyStr.has sep w)) ws = true ->
  forall s t,
    PyStr.after_any ws s = None ->
    PyStr.after_any ws (s ++ String sep t) = None.
Proof.
  induction ws as [|w ws IH]; intros Hws s t Hafter; [reflexivity|].
  cbn in Hws. apply andb_prop in Hws. destruct Hws as [Hw Hws].
  apply negb_true_iff in Hw. cbn in Hafter. cbn [PyStr.after_any].
  destruct (PyStr.after w s) eqn:E; [discriminate|].
  rewrite (after_app_none sep w Hw s t E). now apply IH.
Qed.

(** Nothing is stripped before a text that starts with no white space and
    goes on with a character that stands in none. *)
Lemma lstrip_kept (sep : ascii) (s t : string) :
  PyStr.outside_white_space sep = true ->
  PyStr.lstrip s = s ->
  PyStr.lstrip (s ++ String sep t) = (s ++ String sep t)%string.
Proof.
  intros Hsep Hs. apply lstrip_fixed in Hs.
  pose proof (after_any_app_none sep PyStr.white_space Hsep s t Hs) as E.
  unfold PyStr.lstrip.
  destruct (String.length (s ++ String sep t)); cbn [PyStr.lstrip_upto];
    [reflexivity|].
  now rewrite E.
Qed.

(** ** Dictionaries *)

Lemma get_set (key k value : string) (d : PyDict.t) :
  PyDict.get key (PyDict.set k value d)
  = if (k =? key)%string then Ok value else PyDict.get key d.
Proof.
  induction d as [|[k' v'] d IH]; cbn; [reflexivity|].
  destruct (String.eqb_spec k' k) as [-> | Hk]; cbn.
  - now destruct (k =? key)%string.
  - rewrite IH. destruct (String.eqb_spec k' key) as [-> | Hk'];
      [|reflexivity].
    destruct (String.eqb_spec k key); [congruence | reflexivity].
Qed.

(** Rows of a name and a value fill the dictionary without an error, and a
    name reads as its last row has it. *)
Lemma dict_of_rows_pairs (measures : list (string * string)) :
  forall out,
  exists d,
    dict_of_rows (map (fun m => [fst m; snd m]) measures) out = Ok d
    /\ forall name,
         PyDict.get name d
         = match last_value name measures with
           | Some v => Ok v
           | None => PyDict.get name out
           end.
Proof.
  induction measures as [|[k v] rest IH]; intros out; cbn.
  - now exists out.
  - destruct (IH (PyDict.set k v out)) as (d & -> & Hget).
    exists d. split; [reflexivity|]. intros name. rewrite Hget.
    destruct (last_value name rest); [reflexivity|]. rewrite get_set.
    now destruct (k =? name)%string.
Qed.

(** ** The text of an answer *)

Lemma plain_line (name value : string) :
  plain (name, value) = true ->
  PyStr.split "=" (PyStr.strip (name ++ String "=" value)) = [name; value]
  /\ PyStr.has PyStr.LF (name ++ String "=" value) = false.
Proof.
  unfold plain. intros Hp.
  rewrite !andb_true_iff, !negb_true_iff, !String.eqb_eq in Hp.
  destruct Hp as [[[[[Hlk Hek] Hlv] Hev] Hsp] Hrs].
  split.
  - unfold PyStr.strip.
    rewrite (lstrip_kept "=" name value eq_refl Hsp).
    rewrite (rstrip_app "=" name value eq_refl), Hrs, split_app.
    now rewrite !split_without by assumption.
  - rewrite has_app, Hlk. cbn [PyStr.has orb]. rewrite Hlv. reflexivity.
Qed.

Lemma append_cons (a b t : string) (c : ascii) :
  ((a ++ String c b) ++ t)%string = (a ++ String c (b ++ t))%string.
Proof. induction a as [|x a IH]; cbn; [reflexivity | now rewrite IH]. Qed.

Lemma split_answer (measures : list (string * string)) :
  forallb plain measures = true ->
  map (fun line => PyStr.split "=" (PyStr.strip line))
      (PyStr.split PyStr.LF (answer measures))
  = map (fun m => [fst m; snd m]) measures ++ [[""]].
Proof.
  induction measures as [|[k v] rest IH]; cbn [forallb answer map];
    [reflexivity|].
  intros Hp. apply andb_prop in Hp. destruct Hp as [Hkv Hrest].
  destruct (plain_line k v Hkv) as [Hsplit Hlf].
  replace (k ++ String "=" (v ++ String PyStr.LF (answer rest)))%string
    with ((k ++ String "=" v) ++ String PyStr.LF (answer rest))%string.
  - rewrite split_app, map_app, (IH Hrest).
    rewrite (split_without _ _ Hlf). cbn [map app fst snd].
    now rewrite Hsplit.
  - apply append_cons.
Qed.

(** ** The answers of the device *)

(** X14. An answer of plain measures, one to a line, each line ended by a line
    feed, is read without an error, and every name reads as its last line
    has it; a name with no line is a [KeyError]. *)
Theorem payload_deserializer_answer (measures : list (string * string)) :
  forallb plain measures = true ->
  exists payload,
    payload_deserializer (answer measures) = Ok payload
    /\ forall name,
         PyDict.get name payload
         = match last_value name measures with
           | Some value => Ok value
           | None => Err KeyError
           end.
Proof.
  intros Hp. unfold payload_deserializer.
  rewrite (split_answer measures Hp), removelast_last.
  destruct (dict_of_rows_pairs measures []) as (d & Hd & Hget).
  exists d. split; [exact Hd | exact Hget].
Qed.

(** X15. What follows the last line feed of an answer is never read: a text with
    no line feed gives the empty dictionary, and a tail with no line feed
    after a line feed changes nothing, were it a measure. *)
Theorem payload_deserializer_tail (tail : string) :
  PyStr.has PyStr.LF tail = false ->
  payload_deserializer tail = Ok []
  /\ forall text,
       payload_deserializer (text ++ String PyStr.LF tail)
       = payload_deserializer (text ++ String PyStr.LF "").
Proof.
  intros Htail. unfold payload_deserializer. split.
  - now rewrite (split_without _ _ Htail).
  - intros text. rewrite !split_app, !map_app, (split_without _ _ Htail).
    cbn [PyStr.split map]. now rewrite !removelast_last.
Qed.

Lemma removelast_map {A B} (f : A -> B) (l : list A) :
  removelast (map f l) = map f (removelast l).
Proof.
  induction l as [|a [|b l] IH]; cbn; [reflexivity | reflexivity |].
  cbn in IH. now rewrite IH.
Qed.

Lemma dict_of_rows_ok (lines : list string) :
  forall out,
  is_ok (dict_of_rows
           (map (fun line => PyStr.split "=" (PyStr.strip line)) lines) out)
  = forallb (PyStr.has "=") lines
  /\ (forallb (PyStr.has "=") lines = false ->
      dict_of_rows
        (map (fun line => PyStr.split "=" (PyStr.strip line)) lines) out
      = Err IndexError).
Proof.
  induction lines as [|line lines IH]; intros out; cbn [map forallb dict_of_rows].
  - split; [reflexivity | discriminate].
  - pose proof (split_two "=" (PyStr.strip line)) as Htwo.
    rewrite (has_strip "=" line eq_refl) in Htwo.
    destruct (PyStr.split "=" (PyStr.strip line)) as [|p [|q r]];
      rewrite Htwo; cbn [andb]; try (split; reflexivity).
    apply IH.
Qed.

(** X16. The one error of the reading is the [IndexError] of a line without an
    equals sign: the text is read exactly when every line before its last
    line feed has one, an empty line in the middle being enough to lose the
    whole answer. *)
Theorem payload_deserializer_ok (payload : string) :
  let lines := removelast (PyStr.split PyStr.LF payload) in
  is_ok (payload_deserializer payload) = forallb (PyStr.has "=") lines
  /\ (is_ok (payload_deserializer payload) = true
      \/ payload_deserializer payload = Err IndexError).
Proof.
  intros lines. subst lines. unfold payload_deserializer.
  rewrite removelast_map.
  destruct (dict_of_rows_ok (removelast (PyStr.split PyStr.LF payload)) [])
    as [Hok Herr].
  split; [exact Hok|].
  destruct (forallb (PyStr.has "=")
              (removelast (PyStr.split PyStr.LF payload))).
  - left. exact Hok.
  - right. now apply Herr.
Qed.

(** X17. The power level of an answer of plain measures is what [int] makes
    of the value of the last line for its name; an answer without such a
    line is a [KeyError], and a value that [int] refuses a [ValueError]. *)
Theorem PowerLevel_update_answer (int : string -> option Z)
    (measures : list (string * string)) :
  forallb plain measures = true ->
  PowerLevel_update int (answer measures)
  = match last_value POWER_LEVEL_var_name measures with
    | None => Err KeyError
    | Some value =>
        match int value with
        | Some n => Ok n
        | None => Err ValueError
        end
    end.
Proof.
  intros Hp. unfold PowerLevel_update, measure.
  unfold payload_deserializer.
  rewrite (split_answer measures Hp), removelast_last.
  destruct (dict_of_rows_pairs measures []) as (d & -> & Hget).
  rewrite Hget. now destruct (last_value POWER_LEVEL_var_name measures).
Qed.

End EcoforestFacts.

(** ** Runs of the entity and of the parsing *)

Section TrialRuns.

(** The percentage command refused by the transport, on an optimistic
    channel. *)
Lemma run_command_raised_witness :
  let w := Sample.world (H := Trial.refusing_host)
             Sample.config_no_percentage_state in
  let r := run_command (H := Trial.refusing_host) (SetPercentage 42) w in
  fst r = Raised TransportFailure
  /\ fan (snd r) = fan w
  /\ notifications (trace (snd r)) = 0%nat.
Proof.
  intros w r. split; [reflexivity|].
  destruct (run_command_raised (H := Trial.refusing_host) (fan w) []
              (SetPercentage 42) TransportFailure (snd r) eq_refl)
    as (Hfan & Hnotified & _).
  split; [exact Hfan | exact Hnotified].
Defined.

(** Turning on with a percentage when the transport takes the on payload and
    refuses the speed: the fan is not reckoned on, optimistic as its power
    channel is. *)
Lemma turn_on_raised_witness :
  let w := Trial.world (H := Trial.one_publish_host) Trial.config_no_state in
  let r := async_turn_on (H := Trial.one_publish_host) (Some 50) None w in
  fst r = Raised TransportFailure
  /\ _optimistic (fan w) = true
  /\ _attr_is_on (state (fan (snd r))) = Some false.
Proof.
  intros w r. split; [reflexivity|]. split; [reflexivity|].
  exact (proj1 (turn_on_raised (H := Trial.one_publish_host) (fan w) []
                  (Some 50) None TransportFailure (snd r) eq_refl)).
Defined.

(** Turning on with a percentage and a preset mode when every publish goes
    through. *)
Lemma turn_on_returned_witness :
  let w := Trial.world (H := Sample.host) Trial.config_no_state in
  let r := async_turn_on (H := Sample.host) (Some 50) (Some "eco") w in
  fst r = Returned tt
  /\ _attr_is_on (state (fan (snd r))) = Some true.
Proof.
  intros w r. split; [reflexivity|].
  exact (proj1 (turn_on_returned (H := Sample.host) Trial.config_no_state
                  Trial.switched_off [] (Some 50) (Some "eco") (snd r)
                  eq_refl)).
Defined.

(** A power payload and a speed, in either order. *)
Lemma handlers_commute_witness :
  let w := Sample.world (H := Sample.host) Sample.config in
  fan (snd ((handler (H := Sample.host) Power "OFF" ;;
             handler Percentage "30") w))
  = fan (snd ((handler (H := Sample.host) Percentage "30" ;;
               handler Power "OFF") w)).
Proof.
  intros w.
  refine (proj1 (handlers_commute (H := Sample.host) (fan w) [] Power Percentage
                   "OFF" "30" _)).
  discriminate.
Defined.

(** Five messages, two of them rejected. *)
Lemma deliver_percentage_in_scale_witness :
  percentage_in_scale Sample.half_speed
  /\ percentage_in_scale
       (state (fan (snd (deliver (H := Sample.host) Trial.messages
                           (Sample.world (H := Sample.host) Sample.config))))).
Proof.
  assert (Hst : percentage_in_scale Sample.half_speed) by (cbn; lia).
  split; [exact Hst|].
  exact (deliver_percentage_in_scale (H := Sample.host)
           (_setup_from_config Sample.config Sample.half_speed) []
           Trial.messages Hst).
Defined.

Lemma deliver_preset_mode_known_witness :
  let self := _setup_from_config (H := Sample.host) Sample.config
                Sample.half_speed in
  preset_mode_known self Sample.half_speed
  /\ preset_mode_known self
       (state (fan (snd (deliver (H := Sample.host) Trial.messages
                           {| fan := self; trace := [] |})))).
Proof.
  intros self.
  assert (Hst : preset_mode_known self Sample.half_speed)
    by (cbn; left; reflexivity).
  split; [exact Hst|].
  exact (deliver_preset_mode_known (H := Sample.host) self [] Trial.messages
           Hst).
Defined.

(** The three bits of the fan platform, every command topic configured. *)
Lemma supported_features_bits_witness :
  let features :=
    _attr_supported_features
      (_setup_from_config (H := Sample.host) Sample.config Sample.half_speed) in
  Z.testbit features 1 = true
  /\ Z.testbit features 0 = true
  /\ Z.testbit features 3 = true
  /\ Z.testbit features 2 = false.
Proof.
  intros features.
  destruct (supported_features_bits (H := Sample.host) Sample.config
              Sample.half_speed 1 0 3
              ltac:(lia) ltac:(lia) ltac:(lia) ltac:(lia) ltac:(lia)
              ltac:(lia) eq_refl eq_refl eq_refl)
    as (Ho & Hs & Hp & Hother).
  split; [exact Ho|]. split; [exact Hs|]. split; [exact Hp|].
  apply Hother; lia.
Defined.

(** A configured preset mode arriving on the preset state topic. *)
Lemma configured_preset_mode_received_witness :
  _attr_preset_mode
    (state (fan (snd (preset_mode_received (H := Sample.host) "auto"
                        (Sample.world (H := Sample.host) Sample.config)))))
  = Some "auto".
Proof.
  unfold Sample.world.
  rewrite (configured_preset_mode_received (H := Sample.host) Sample.config
             Sample.half_speed [] "auto" "auto" eq_refl eq_refl
             ltac:(right; left; reflexivity) ltac:(discriminate) eq_refl).
  reflexivity.
Defined.

(** The same payload when the preset command topic is missing. *)
Lemma preset_mode_received_without_command_topic_witness :
  let w := Sample.world (H := Sample.host) Trial.config_no_preset_command in
  In "auto" (CONF_PRESET_MODES_LIST
               (Trial.config_no_preset_command (H := Sample.host)))
  /\ preset_mode_received (H := Sample.host) "auto" w = (Returned tt, w).
Proof.
  intros w. split; [right; left; reflexivity|].
  exact (proj2 (preset_mode_received_without_command_topic (H := Sample.host)
                  Trial.config_no_preset_command Sample.half_speed [] "auto"
                  eq_refl ltac:(discriminate))).
Defined.

(** The percentage channel of the sample entity reports its state. *)
Lemma not_optimistic_subscribed_witness :
  exists t,
    In (CONF_PERCENTAGE_STATE_TOPIC, t)
       (snd (_prepare_subscribe_topics
               (_setup_from_config (H := Sample.host) Sample.config
                  Sample.half_speed))).
Proof.
  exact (not_optimistic_subscribed (H := Sample.host) Sample.config
           Sample.half_speed Percentage eq_refl).
Defined.

(** A negative minimum before the validator of the module, and before the
    schema. *)
Lemma valid_speed_range_configuration_alone_witness :
  let config := Trial.config_negative_minimum (H := Sample.host) in
  valid_speed_range_configuration config = Valid config
  /\ is_valid (speed_range_schema config) = false.
Proof.
  intros config. split; [|reflexivity].
  exact (valid_speed_range_configuration_alone (H := Sample.host) config
           ltac:(cbn; lia) ltac:(cbn; lia)).
Defined.

(** An answer of four lines, the power level on two of them. *)
Lemma payload_deserializer_answer_witness :
  forallb Ecoforest.plain Trial.measures = true
  /\ exists payload,
       Ecoforest.payload_deserializer (Ecoforest.answer Trial.measures)
       = Ok payload
       /\ PyDict.get "Ni" payload = Ok "7"
       /\ PyDict.get "Co" payload = Err KeyError.
Proof.
  split; [reflexivity|].
  destruct (EcoforestFacts.payload_deserializer_answer Trial.measures eq_refl)
    as (payload & Hok & Hget).
  exists payload. split; [exact Hok|].
  split; [exact (Hget "Ni") | exact (Hget "Co")].
Defined.

(** A measure after the last line feed. *)
Lemma payload_deserializer_tail_witness :
  Ecoforest.payload_deserializer "Ni=9" = Ok []
  /\ Ecoforest.payload_deserializer
       ("Ta=21.5" ++ String PyStr.LF "Ni=9")
     = Ecoforest.payload_deserializer ("Ta=21.5" ++ String PyStr.LF "").
Proof.
  destruct (EcoforestFacts.payload_deserializer_tail "Ni=9" eq_refl)
    as [Hnone Htail].
  split; [exact Hnone | exact (Htail "Ta=21.5")].
Defined.

(** The power level of the answer. *)
Lemma PowerLevel_update_answer_witness :
  Ecoforest.PowerLevel_update Sample.decimal (Ecoforest.answer Trial.measures)
  = Ok 7.
Proof.
  exact (EcoforestFacts.PowerLevel_update_answer Sample.decimal Trial.measures
           eq_refl).
Defined.

(** A value that ends with a no-break space, U+00A0, is stripped of it and
    so is no plain measure. *)
Example strip_no_break_space :
  let value := ("1" ++ PyStr.text_of [194; 160]%nat)%string in
  PyStr.strip value = "1"
  /\ Ecoforest.plain ("a", value) = false
  /\ Ecoforest.payload_deserializer
       ("a=" ++ value ++ String PyStr.LF "")
     = Ok [("a", "1")].
Proof. repeat split. Qed.

End TrialRuns.
